(** * OCR page controller ([Front/src/static/ocr.js])

    A shallow embedding of the [OCRApplication] class: the controller
    object, the DOM elements it holds, the notifications it appends to the
    document, and the browser-side tasks (fetches, file readers, timers)
    whose completion re-enters the controller.  Every method of the class
    is a function on the state; the two [async] methods are cut at their
    [await]s into the part that runs before the suspension and the parts
    that run when the awaited promise settles. *)

From Stdlib Require Import List String Bool NArith Arith Lia.
Import ListNotations.
Open Scope string_scope.

(** ** Data *)

(** A browser [File]: the three attributes the controller reads. *)
Record File := mkFile {
  name : string;
  type : string;
  size : N
}.

(** What the upload area shows: the markup of the page as loaded, a clone
    of the icon field ([restoreDefaultView]), or the preview image built
    from the data URL of a file ([reader.onload]). *)
Inductive AreaContent :=
| PageMarkup
| IconClone
| ImagePreview (f : File).

Record UploadArea := mkArea {
  innerHTML : AreaContent;
  drag_over : bool
}.

(** An element with text and a [style.color]. *)
Record Label := mkLabel {
  textContent : string;
  color : string
}.

Record Button := mkButton {
  disabled : bool;
  caption : string
}.

Record Status := mkStatus {
  status_text : string;
  className : string
}.

(** [this.elements]. *)
Record Elements := mkElements {
  uploadArea : UploadArea;
  fileInput : string;            (* fileInput.value *)
  fileName : Label;
  recognizeBtn : Button;
  resultText : Label;
  fileNameDisplay : string;      (* fileNameDisplay.textContent *)
  systemStatus : Status
}.

(** A [div] carrying the class [notification]; [note_id] is the identity
    of the node, which the timer closure of [showNotification] holds. *)
Record Notification := mkNote {
  note_id : nat;
  note_class : string;
  note_text : string
}.

(** What the controller does to browser objects other than its elements,
    in program order: the requests it sends, the reads it starts, the
    attributes of a [File] it looks at. *)
Inductive Effect :=
| Fetch (url method : string) (body : list (string * File))
| Get (f : File) (attribute : string)
| ReadAsDataURL (f : File)
| ConsoleError (msg : string)
| ScrollIntoView
| ClipboardWrite (text : string)
| ExecCopy (text : string)
| InputClick
| PreventDefault.

(** Suspended work that the browser completes later. *)
Inductive Task :=
| UploadFetch                    (* recognizeText at [await fetch] *)
| UploadJson                     (* recognizeText at [await response.json()] *)
| StatusFetch                    (* checkSystemStatus at [await fetch] *)
| StatusJson                     (* checkSystemStatus at [await response.json()] *)
| Reader (f : File)              (* FileReader started by displayFilePreview *)
| Timer (note : nat)             (* setTimeout of showNotification *)
| Clipboard (text : string).     (* copyToClipboard at [await writeText] *)

Record State := mkState {
  currentFile : option File;
  elements : Elements;
  notifications : list Notification;  (* nodes of class notification in the document *)
  tasks : list (nat * Task);
  fresh : nat;                         (* next node / task identity *)
  log : list Effect
}.

(** JSON of [POST /upload]; an absent field reads as [undefined]. *)
Record UploadData := mkUpload {
  success : bool;
  recognized_text : option string;
  filename : option string;
  error : option string
}.

(** JSON of [GET /model_status]. *)
Record StatusData := mkStatusData {
  status : option string;
  engine : option string
}.

(** What the page reacts to: user input, and the browser settling a task.
    A parse event carries [None] when [response.json()] rejects or yields
    [null], so that reading a field of the result throws.  A click on the
    copy button comes in two kinds, by whether the browser offers
    [navigator.clipboard]. *)
Inductive Event :=
| ChooseClick                                   (* click on chooseBtn *)
| InputChange (files : list File)               (* change on fileInput *)
| DragOver
| DragLeave
| DropFiles (files : list File)                 (* drop on uploadArea *)
| RecognizeClick                                (* click on recognizeBtn *)
| CopyClick                                     (* click on copyBtn *)
| AreaClick (image_field : bool)                (* click inside uploadArea *)
| UploadFetched (tid : nat) (ok : bool)         (* fetch('/upload') settles *)
| UploadParsed (tid : nat) (data : option UploadData)
| StatusFetched (tid : nat) (ok : bool)         (* fetch('/model_status') settles *)
| StatusParsed (tid : nat) (data : option StatusData)
| ReaderLoad (tid : nat)
| ReaderError (tid : nat)
| Timeout (tid : nat)
| ClipboardSettled (tid : nat) (ok : bool)
| CopyClickNoApi.                               (* click on copyBtn where
                                                   navigator.clipboard is undefined *)

(** ** JavaScript coercions used by the controller *)

(** Assigning to [textContent]: [undefined] and [null] give the empty text. *)
Definition as_text (v : option string) : string :=
  match v with Some t => t | None => "" end.

(** Interpolation in a template literal: [undefined] prints as its name. *)
Definition interpolate (v : option string) : string :=
  match v with Some t => t | None => "undefined" end.

(** [Array.prototype.includes] on an array of strings. *)
Definition includes (l : list string) (x : string) : bool :=
  existsb (String.eqb x) l.

(** ** State updates *)

Definition Action := State -> State.

Definition seq (a b : Action) : Action := fun s => b (a s).
Notation "a ;; b" := (seq a b) (at level 61, left associativity).

Definition skip : Action := fun s => s.

Definition set_currentFile (v : option File) : Action := fun s =>
  mkState v (elements s) (notifications s) (tasks s) (fresh s) (log s).

Definition upd_elements (f : Elements -> Elements) : Action := fun s =>
  mkState (currentFile s) (f (elements s)) (notifications s) (tasks s)
          (fresh s) (log s).

Definition set_notifications (l : list Notification) : Action := fun s =>
  mkState (currentFile s) (elements s) l (tasks s) (fresh s) (log s).

Definition set_tasks (l : list (nat * Task)) : Action := fun s =>
  mkState (currentFile s) (elements s) (notifications s) l (fresh s) (log s).

Definition emit (e : Effect) : Action := fun s =>
  mkState (currentFile s) (elements s) (notifications s) (tasks s) (fresh s)
          (log s ++ [e]).

(** Register suspended work under a new identity. *)
Definition spawn (t : Task) : Action := fun s =>
  mkState (currentFile s) (elements s) (notifications s)
          (tasks s ++ [(fresh s, t)]) (S (fresh s)) (log s).

Definition set_uploadArea (v : UploadArea) (e : Elements) : Elements :=
  mkElements v (fileInput e) (fileName e) (recognizeBtn e) (resultText e)
             (fileNameDisplay e) (systemStatus e).
Definition set_fileInput (v : string) (e : Elements) : Elements :=
  mkElements (uploadArea e) v (fileName e) (recognizeBtn e) (resultText e)
             (fileNameDisplay e) (systemStatus e).
Definition set_fileName (v : Label) (e : Elements) : Elements :=
  mkElements (uploadArea e) (fileInput e) v (recognizeBtn e) (resultText e)
             (fileNameDisplay e) (systemStatus e).
Definition set_recognizeBtn (v : Button) (e : Elements) : Elements :=
  mkElements (uploadArea e) (fileInput e) (fileName e) v (resultText e)
             (fileNameDisplay e) (systemStatus e).
Definition set_resultText (v : Label) (e : Elements) : Elements :=
  mkElements (uploadArea e) (fileInput e) (fileName e) (recognizeBtn e) v
             (fileNameDisplay e) (systemStatus e).
Definition set_fileNameDisplay (v : string) (e : Elements) : Elements :=
  mkElements (uploadArea e) (fileInput e) (fileName e) (recognizeBtn e)
             (resultText e) v (systemStatus e).
Definition set_systemStatus (v : Status) (e : Elements) : Elements :=
  mkElements (uploadArea e) (fileInput e) (fileName e) (recognizeBtn e)
             (resultText e) (fileNameDisplay e) v.

(** Single-property writes, as the source performs them. *)
Definition uploadArea_innerHTML (c : AreaContent) : Action :=
  upd_elements (fun e => set_uploadArea (mkArea c (drag_over (uploadArea e))) e).
Definition uploadArea_drag_over (b : bool) : Action :=
  upd_elements (fun e => set_uploadArea (mkArea (innerHTML (uploadArea e)) b) e).
Definition fileInput_value (v : string) : Action :=
  upd_elements (set_fileInput v).
Definition fileName_textContent (t : string) : Action :=
  upd_elements (fun e => set_fileName (mkLabel t (color (fileName e))) e).
Definition fileName_color (c : string) : Action :=
  upd_elements (fun e => set_fileName (mkLabel (textContent (fileName e)) c) e).
Definition recognizeBtn_disabled (b : bool) : Action :=
  upd_elements (fun e => set_recognizeBtn (mkButton b (caption (recognizeBtn e))) e).
Definition recognizeBtn_textContent (t : string) : Action :=
  upd_elements (fun e => set_recognizeBtn (mkButton (disabled (recognizeBtn e)) t) e).
Definition resultText_textContent (t : string) : Action :=
  upd_elements (fun e => set_resultText (mkLabel t (color (resultText e))) e).
Definition resultText_color (c : string) : Action :=
  upd_elements (fun e => set_resultText (mkLabel (textContent (resultText e)) c) e).
Definition fileNameDisplay_textContent (t : string) : Action :=
  upd_elements (set_fileNameDisplay t).
Definition systemStatus_textContent (t : string) : Action :=
  upd_elements (fun e => set_systemStatus (mkStatus t (className (systemStatus e))) e).
Definition systemStatus_className (c : string) : Action :=
  upd_elements (fun e => set_systemStatus (mkStatus (status_text (systemStatus e)) c) e).

(** ** Methods of [OCRApplication] *)

Definition handleDragOver : Action :=
  emit PreventDefault ;;
  uploadArea_drag_over true.

Definition handleDragLeave : Action :=
  uploadArea_drag_over false.

(** [new FileReader()], the two callbacks, [reader.readAsDataURL(file)]:
    the read is started and its callbacks run when the browser settles it. *)
Definition displayFilePreview (file : File) : Action :=
  emit (ReadAsDataURL file) ;;
  spawn (Reader file).

Definition updateFileInfo (filename : string) : Action :=
  fileName_textContent ("Выбран файл: " ++ filename) ;;
  fileName_color "#4CAF50" ;;
  fileNameDisplay_textContent ("Файл: " ++ filename).

Definition restoreDefaultView : Action :=
  uploadArea_innerHTML IconClone.

Definition enableRecognizeButton : Action :=
  recognizeBtn_disabled false ;;
  recognizeBtn_textContent "Распознать текст".

Definition disableRecognizeButton : Action :=
  recognizeBtn_disabled true.

Definition resetFileSelection : Action :=
  set_currentFile None ;;
  fileInput_value "" ;;
  disableRecognizeButton ;;
  fileName_textContent "" ;;
  restoreDefaultView.

Definition showError (message : string) : Action :=
  fileName_textContent message ;;
  fileName_color "#f44336" ;;
  resetFileSelection.

Definition placeholder : string := "Здесь появится распознанный текст...".

Definition hideResult : Action :=
  resultText_textContent placeholder ;;
  resultText_color "#666".

Definition showResult (text filename : option string) : Action :=
  resultText_textContent (as_text text) ;;
  resultText_color "#000" ;;
  fileNameDisplay_textContent ("Файл: " ++ interpolate filename) ;;
  emit ScrollIntoView.

Definition allowedTypes : list string :=
  ["image/png"; "image/jpeg"; "image/jpg"; "image/bmp"; "image/tiff"].

Definition maxSize : N := 16 * 1024 * 1024.

(** The argument is [None] for a falsy [file]. *)
Definition handleFileSelect (file : option File) : Action :=
  match file with
  | None => skip
  | Some file =>
      emit (Get file "type") ;;
      (if negb (includes allowedTypes (type file)) then
         showError "Пожалуйста, выберите файл изображения (PNG, JPG, BMP, TIFF)"
       else
         emit (Get file "size") ;;
         (if (maxSize <? size file)%N then
            showError "Файл слишком большой. Максимальный размер: 16MB"
          else
            set_currentFile (Some file) ;;
            displayFilePreview file ;;
            emit (Get file "name") ;;
            updateFileInfo (name file) ;;
            enableRecognizeButton ;;
            hideResult))
  end.

Definition handleDrop (files : list File) : Action :=
  emit PreventDefault ;;
  uploadArea_drag_over false ;;
  match files with
  | file :: _ => handleFileSelect (Some file)
  | [] => skip
  end.

(** Every node of class [notification] is removed, a new one is appended
    to the body, and a timer is set that removes that node if it still has
    a parent. *)
Definition showNotification (message type : string) : Action := fun s =>
  (set_notifications
     [mkNote (fresh s) ("notification notification-" ++ type) message] ;;
   spawn (Timer (fresh s))) s.

Definition setRecognizeButtonState (state : string) : Action :=
  if String.eqb state "loading" then
    recognizeBtn_textContent "Обработка..." ;;
    recognizeBtn_disabled true
  else if String.eqb state "ready" then
    recognizeBtn_textContent "Распознать текст" ;;
    recognizeBtn_disabled false
  else skip.

(** [recognizeText] up to [await fetch('/upload', ...)]. *)
Definition recognizeText : Action := fun s =>
  match currentFile s with
  | None => showNotification "Пожалуйста, сначала выберите файл" "error" s
  | Some file =>
      (setRecognizeButtonState "loading" ;;
       emit (Fetch "/upload" "POST" [("file", file)]) ;;
       spawn UploadFetch) s
  end.

Definition recognizeText_finally : Action :=
  setRecognizeButtonState "ready".

Definition recognizeText_catch : Action :=
  emit (ConsoleError "Ошибка сети:") ;;
  showError "Ошибка сети при загрузке файла" ;;
  showNotification "Ошибка сети. Проверьте подключение." "error".

(** [recognizeText] from [const data = ...] to the end of the [try] block. *)
Definition recognizeText_try (data : UploadData) : Action :=
  if success data then
    showResult (recognized_text data) (filename data) ;;
    showNotification "Текст успешно распознан!" "success"
  else
    showError (as_text (error data)) ;;
    showNotification ("Ошибка: " ++ interpolate (error data)) "error".

Definition copyToClipboard_then : Action :=
  showNotification "Текст скопирован в буфер обмена!" "success".

(** The fallback appends a [textarea] to the body, copies from it and
    removes it again. *)
Definition copyToClipboard_catch (text : string) : Action :=
  emit (ExecCopy text) ;;
  showNotification "Текст скопирован!" "success".

(** [copyToClipboard] up to its first suspension.  [clipboard_api] tells
    whether [navigator.clipboard] is defined.  Where it is, [writeText] is
    called and the method waits for it; where it is not, the call throws
    inside the [try] before anything is written, and the [catch] block
    runs at once, within the click. *)
Definition copyToClipboard (clipboard_api : bool) : Action := fun s =>
  let text := textContent (resultText (elements s)) in
  if String.eqb text "" || String.eqb text placeholder then
    showNotification "Нет текста для копирования" "error" s
  else if clipboard_api then
    (emit (ClipboardWrite text) ;; spawn (Clipboard text)) s
  else
    copyToClipboard_catch text s.

(** [checkSystemStatus] up to [await fetch('/model_status')]. *)
Definition checkSystemStatus : Action :=
  emit (Fetch "/model_status" "GET" []) ;;
  spawn StatusFetch.

Definition checkSystemStatus_try (data : StatusData) : Action :=
  systemStatus_textContent (as_text (status data)) ;;
  if match engine data with
     | Some e => String.eqb e "pillow"
     | None => false
     end
  then systemStatus_className "status-value status-demo"
  else systemStatus_className "status-value status-available".

Definition checkSystemStatus_catch : Action :=
  emit (ConsoleError "Ошибка проверки статуса:") ;;
  systemStatus_textContent "Ошибка проверки" ;;
  systemStatus_className "status-value status-error".

(** ** The page as a transition system *)

Fixpoint lookup_task (tid : nat) (l : list (nat * Task)) : option Task :=
  match l with
  | [] => None
  | (i, t) :: l' => if Nat.eqb i tid then Some t else lookup_task tid l'
  end.

Fixpoint remove_task (tid : nat) (l : list (nat * Task)) : list (nat * Task) :=
  match l with
  | [] => []
  | (i, t) :: l' => if Nat.eqb i tid then l' else (i, t) :: remove_task tid l'
  end.

(** Settle the task [tid]: it leaves the table and its continuation runs.
    An identity that names no pending task of the expected kind is not an
    event of the page and leaves the state as it is. *)
Definition settle (tid : nat) (k : Task -> option Action) : Action := fun s =>
  match lookup_task tid (tasks s) with
  | Some t =>
      match k t with
      | Some a => a (set_tasks (remove_task tid (tasks s)) s)
      | None => s
      end
  | None => s
  end.

(** The same [async] call suspends again, keeping its identity. *)
Definition suspend (tid : nat) (t : Task) : Action := fun s =>
  set_tasks (tasks s ++ [(tid, t)]) s.

(** The timer callback of [showNotification]. *)
Definition notification_timeout (note : nat) : Action := fun s =>
  set_notifications
    (filter (fun n => negb (Nat.eqb (note_id n) note)) (notifications s)) s.

(** The browser fills [fileInput.value] before it dispatches [change]. *)
Definition chosen_value (files : list File) : string :=
  match files with
  | f :: _ => "C:\fakepath\" ++ name f
  | [] => ""
  end.

Definition step (s : State) (e : Event) : State :=
  match e with
  | ChooseClick => emit InputClick s
  | InputChange files =>
      (fileInput_value (chosen_value files) ;;
       match files with
       | file :: _ => handleFileSelect (Some file)
       | [] => skip
       end) s
  | DragOver => handleDragOver s
  | DragLeave => handleDragLeave s
  | DropFiles files => handleDrop files s
  | RecognizeClick => recognizeText s
  | CopyClick => copyToClipboard true s
  | CopyClickNoApi => copyToClipboard false s
  | AreaClick image_field => if image_field then emit InputClick s else s
  | UploadFetched tid ok =>
      settle tid (fun t =>
        match t with
        | UploadFetch =>
            Some (if ok then suspend tid UploadJson
                  else recognizeText_catch ;; recognizeText_finally)
        | _ => None
        end) s
  | UploadParsed tid data =>
      settle tid (fun t =>
        match t with
        | UploadJson =>
            Some (match data with
                  | Some d => recognizeText_try d
                  | None => recognizeText_catch
                  end ;; recognizeText_finally)
        | _ => None
        end) s
  | StatusFetched tid ok =>
      settle tid (fun t =>
        match t with
        | StatusFetch =>
            Some (if ok then suspend tid StatusJson else checkSystemStatus_catch)
        | _ => None
        end) s
  | StatusParsed tid data =>
      settle tid (fun t =>
        match t with
        | StatusJson =>
            Some (match data with
                  | Some d => checkSystemStatus_try d
                  | None => checkSystemStatus_catch
                  end)
        | _ => None
        end) s
  | ReaderLoad tid =>
      settle tid (fun t =>
        match t with
        | Reader f => Some (uploadArea_innerHTML (ImagePreview f))
        | _ => None
        end) s
  | ReaderError tid =>
      settle tid (fun t =>
        match t with
        | Reader _ => Some (showError "Ошибка чтения файла")
        | _ => None
        end) s
  | Timeout tid =>
      settle tid (fun t =>
        match t with
        | Timer note => Some (notification_timeout note)
        | _ => None
        end) s
  | ClipboardSettled tid ok =>
      settle tid (fun t =>
        match t with
        | Clipboard text =>
            Some (if ok then copyToClipboard_then else copyToClipboard_catch text)
        | _ => None
        end) s
  end.

Definition run (s : State) (es : list Event) : State := fold_left step es s.

(** [new OCRApplication()] on a loaded page: [page] are the elements the
    constructor looks up, [notes] the nodes of class [notification] that
    the markup already contains. *)
Definition constructor (page : Elements) (notes : list Notification) : State :=
  checkSystemStatus
    (mkState None page notes [] (S (list_max (map note_id notes))) []).

(** ** Predicates the statements use *)

(** The validation as the specification words it: the type is one of the
    five image types and the size is at most 16 MiB.  Its agreement with
    the two tests of [handleFileSelect] is [handleFileSelect_accepts_iff]. *)
Definition valid_file (f : File) : bool :=
  includes allowedTypes (type f) && (size f <=? maxSize)%N.

Definition is_upload (e : Effect) : bool :=
  match e with
  | Fetch url method _ => String.eqb url "/upload" && String.eqb method "POST"
  | _ => false
  end.

Definition is_fetch (e : Effect) : bool :=
  match e with
  | Fetch _ _ _ => true
  | _ => false
  end.

(** The files sent to [/upload] so far, in order. *)
Definition uploaded (l : list Effect) : list File :=
  flat_map (fun e =>
    match e with
    | Fetch url _ body => if String.eqb url "/upload" then map snd body else []
    | _ => []
    end) l.

Definition btn_disabled (s : State) : bool := disabled (recognizeBtn (elements s)).

(** A page with empty texts, used for concrete runs. *)
Definition blank_page : Elements :=
  mkElements (mkArea PageMarkup false) "" (mkLabel "" "") (mkButton true "")
             (mkLabel "" "") "" (mkStatus "" "").

Definition png : File := mkFile "scan.png" "image/png" 2048.
Definition txt : File := mkFile "notes.txt" "text/plain" 120.
Definition huge : File := mkFile "poster.tiff" "image/tiff" 16777217.

Definition is_upload_task (t : Task) : bool :=
  match t with
  | UploadFetch | UploadJson => true
  | _ => false
  end.

(** A [recognizeText] call is suspended on its request. *)
Definition upload_pending (s : State) : bool :=
  existsb (fun p => is_upload_task (snd p)) (tasks s).

(** The file an event hands to [handleFileSelect]. *)
Definition selected (e : Event) : option File :=
  match e with
  | InputChange (f :: _) => Some f
  | DropFiles (f :: _) => Some f
  | _ => None
  end.

(** The events that end a [recognizeText] call in state [s]. *)
Definition ends_recognition (s : State) (e : Event) : bool :=
  match e with
  | UploadFetched tid ok =>
      match lookup_task tid (tasks s) with
      | Some UploadFetch => negb ok
      | _ => false
      end
  | UploadParsed tid _ =>
      match lookup_task tid (tasks s) with
      | Some UploadJson => true
      | _ => false
      end
  | _ => false
  end.



(** The event reaches a [showError] call in state [s]. *)
Definition reports_error (s : State) (e : Event) : bool :=
  match e with
  | InputChange (f :: _) => negb (valid_file f)
  | DropFiles (f :: _) => negb (valid_file f)
  | ReaderError tid =>
      match lookup_task tid (tasks s) with
      | Some (Reader _) => true
      | _ => false
      end
  | UploadFetched tid ok =>
      match lookup_task tid (tasks s) with
      | Some UploadFetch => negb ok
      | _ => false
      end
  | UploadParsed tid data =>
      match lookup_task tid (tasks s) with
      | Some UploadJson =>
          match data with
          | Some d => negb (success d)
          | None => true
          end
      | _ => false
      end
  | _ => false
  end.

Definition error_class : string := "notification notification-error".

(** A notification of the error kind is in the document. *)
Definition error_notified (s : State) : bool :=
  existsb (fun n => String.eqb (note_class n) error_class) (notifications s).

Definition network_message : string := "Ошибка сети. Проверьте подключение.".

Definition start : State := constructor blank_page [].

(** The selected file and every file sent so far passed the validation. *)
Definition only_valid (s : State) : Prop :=
  (forall g, currentFile s = Some g -> valid_file g = true)
  /\ Forall (fun g => valid_file g = true) (uploaded (log s)).

(** The request [recognizeText] sends for the file [f]. *)
Definition upload_of (f : File) : Effect :=
  Fetch "/upload" "POST" [("file", f)].

(** Every upload in the log comes after the preview read of its file was
    started. *)
Definition preview_first (l : list Effect) : Prop :=
  forall l1 l2 f, l = (l1 ++ upload_of f :: l2)%list -> In (ReadAsDataURL f) l1.

Definition read_started (s : State) : Prop :=
  (forall g, currentFile s = Some g -> In (ReadAsDataURL g) (log s))
  /\ preview_first (log s).

(** ** Predicates of the further properties *)

(** The bookkeeping of identities: pending tasks have distinct identities
    below the next one to be given, so have the nodes in the document, and
    the timer of a notification is filed under the identity of its node. *)
Definition well_numbered (s : State) : Prop :=
  NoDup (map fst (tasks s))
  /\ Forall (fun p => fst p < fresh s) (tasks s)
  /\ Forall (fun n => note_id n < fresh s) (notifications s)
  /\ Forall (fun p => match snd p with
                      | Timer n => n = fst p
                      | _ => True
                      end) (tasks s).

(** Every notification in the document still has its removal timer
    pending. *)
Definition timers_armed (s : State) : Prop :=
  forall n, In n (notifications s) ->
            lookup_task (note_id n) (tasks s) = Some (Timer (note_id n)).

(** Text that [copyToClipboard] accepts: not empty and not the placeholder. *)
Definition copyable (text : string) : bool :=
  negb (String.eqb text "" || String.eqb text placeholder).

(** The texts handed to the clipboard so far, by either route. *)
Definition copied (l : list Effect) : list string :=
  flat_map (fun e =>
    match e with
    | ClipboardWrite t => [t]
    | ExecCopy t => [t]
    | _ => []
    end) l.

Definition clipboard_clean (s : State) : Prop :=
  Forall (fun t => copyable t = true) (copied (log s))
  /\ Forall (fun p => match snd p with
                      | Clipboard t => copyable t = true
                      | _ => True
                      end) (tasks s).

Definition is_status_request (e : Effect) : bool :=
  match e with
  | Fetch url _ _ => String.eqb url "/model_status"
  | _ => false
  end.

Definition success_class : string := "notification notification-success".

(** The controller only ever raises the two kinds of notification. *)
Definition known_class (n : Notification) : bool :=
  String.eqb (note_class n) error_class || String.eqb (note_class n) success_class.

(** With a file selected, the recognize control is disabled only while a
    recognition is outstanding. *)
Definition never_locked (s : State) : Prop :=
  currentFile s <> None -> btn_disabled s = true -> upload_pending s = true.

(** The state every [showError] leaves in the elements it resets. *)
Definition view_reset (s : State) : Prop :=
  currentFile s = None
  /\ fileInput (elements s) = ""
  /\ fileName (elements s) = mkLabel "" "#f44336"
  /\ innerHTML (uploadArea (elements s)) = IconClone.

(** Two states of the elements agree except on [systemStatus]. *)
Definition same_but_status (a b : Elements) : Prop :=
  uploadArea a = uploadArea b /\ fileInput a = fileInput b
  /\ fileName a = fileName b /\ recognizeBtn a = recognizeBtn b
  /\ resultText a = resultText b /\ fileNameDisplay a = fileNameDisplay b.

Definition is_input_click (e : Effect) : bool :=
  match e with
  | InputClick => true
  | _ => false
  end.

(** ** Proof support *)

(** The validation and the table look-ups stay folded while a method is
    evaluated; their branches are split by hand. *)
Arguments includes : simpl never.
Arguments valid_file : simpl never.
Arguments lookup_task : simpl never.
Arguments remove_task : simpl never.
Arguments N.ltb : simpl never.
Arguments N.leb : simpl never.

(** Evaluate a straight-line method down to the fields it writes. *)
Ltac straight := cbn.

(** Split on the two checks of [handleFileSelect]. *)
Ltac checks f :=
  unfold handleFileSelect, valid_file, seq in *;
  destruct (includes allowedTypes (type f)) eqn:?;
  destruct (N.ltb maxSize (size f)) eqn:?;
  repeat match goal with
         | H : N.ltb _ _ = true |- _ => apply N.ltb_lt in H
         | H : N.ltb _ _ = false |- _ => apply N.ltb_ge in H
         end;
  try (destruct (N.leb (size f) maxSize) eqn:?);
  repeat match goal with
         | H : N.leb _ _ = true |- _ => apply N.leb_le in H
         | H : N.leb _ _ = false |- _ => apply N.leb_gt in H
         end;
  try lia; cbn [negb andb] in *.

(** Case analysis that follows the branches of [step]. *)
Ltac branches :=
  repeat match goal with
         | |- context [lookup_task ?t ?l] =>
             destruct (lookup_task t l) as [[]|] eqn:?; cbn
         | |- context [match currentFile ?s with _ => _ end] =>
             destruct (currentFile s) eqn:?; cbn
         | |- context [success ?d] =>
             is_var d; destruct (success d) eqn:?; cbn
         | |- context [if ?b then _ else _] =>
             is_var b; destruct b; cbn
         | |- context [match ?d with Some _ => _ | None => _ end] =>
             is_var d; destruct d; cbn
         | |- context [if ?c then _ else _] =>
             destruct c eqn:?; cbn
         end.

(** Expose the handler an event runs. *)
Ltac open_step :=
  cbn [step selected reports_error ends_recognition];
  unfold settle, recognizeText, copyToClipboard, handleDrop,
    recognizeText_try, checkSystemStatus_try, seq;
  cbv beta iota zeta.

(** One goal per event; [f] names the first file of a selection. *)
Ltac by_event e f :=
  destruct e as [ |[|f ?]| | |[|f ?]| | | | | | | | | | | | ]; open_step.

(** Goals about what a step appended to the log. *)
Ltac log_tail :=
  cbn; rewrite ?filter_app, ?flat_map_app; cbn; rewrite ?app_nil_r;
  try reflexivity.

(** ** Strings and the task table *)

Lemma length_append (a b : string) :
  String.length (a ++ b) = String.length a + String.length b.
Proof. induction a as [|c a IH]; cbn; [reflexivity | now rewrite IH]. Qed.

Lemma prefixed_differs (p e : string) :
  String.length p <> 0 -> (p ++ e)%string <> e.
Proof.
  intros Hp Heq. apply (f_equal String.length) in Heq.
  rewrite length_append in Heq. lia.
Qed.

(** Settling a task of another kind leaves the tasks of kind [P] pending. *)
Lemma remove_task_keeps (P : Task -> bool) (tid : nat)
      (l : list (nat * Task)) (t : Task) :
  lookup_task tid l = Some t -> P t = false ->
  existsb (fun p => P (snd p)) (remove_task tid l)
  = existsb (fun p => P (snd p)) l.
Proof.
  unfold lookup_task, remove_task.
  induction l as [|[i u] l IH]; intros Hl Hp; [discriminate|].
  fold lookup_task remove_task in *.
  destruct (Nat.eqb i tid).
  - injection Hl as ->. cbn. now rewrite Hp.
  - cbn. now rewrite IH.
Qed.

(** ** [handleFileSelect] *)

Lemma showError_wipes (m : string) (s : State) :
  textContent (fileName (elements (showError m s))) = "".
Proof. reflexivity. Qed.

Lemma showError_state (m1 m2 : string) (s : State) :
  showError m1 s = showError m2 s.
Proof. reflexivity. Qed.

Lemma handleFileSelect_valid (f : File) (s : State) :
  valid_file f = true ->
  handleFileSelect (Some f) s =
  (emit (Get f "type") ;; emit (Get f "size") ;;
   set_currentFile (Some f) ;; displayFilePreview f ;;
   emit (Get f "name") ;; updateFileInfo (name f) ;;
   enableRecognizeButton ;; hideResult) s.
Proof. intros Hv. checks f; try discriminate. reflexivity. Qed.

(** A rejected file: the type is looked at, the size only if the type
    passed, and [showError] runs; the state it leaves does not depend on
    the message. *)
Lemma handleFileSelect_invalid (f : File) (s : State) :
  valid_file f = false ->
  handleFileSelect (Some f) s =
  showError ""
    ((emit (Get f "type") ;;
      if includes allowedTypes (type f) then emit (Get f "size") else skip) s).
Proof. intros Hv. checks f; try discriminate; reflexivity. Qed.

Lemma handleFileSelect_accepts_iff (f : File) (s : State) :
  let s' := handleFileSelect (Some f) s in
  (currentFile s' = Some f /\ btn_disabled s' = false
   /\ log s' = (log s ++ [Get f "type"; Get f "size"; ReadAsDataURL f;
                           Get f "name"])%list
   /\ tasks s' = (tasks s ++ [(fresh s, Reader f)])%list)
  <-> valid_file f = true.
Proof.
  cbv zeta. split.
  - intros (Hc & _). destruct (valid_file f) eqn:Hv; [reflexivity|].
    rewrite handleFileSelect_invalid in Hc by assumption. discriminate.
  - intros Hv. rewrite handleFileSelect_valid by assumption. repeat split.
    cbn. rewrite <- !app_assoc. reflexivity.
Qed.

(** ** One step of the page *)

(** The selected file after a step: set by a valid selection, cleared by
    every path through [showError], kept otherwise. *)
Lemma step_currentFile (s : State) (e : Event) :
  currentFile (step s e) =
  match selected e with
  | Some f => if valid_file f then Some f else None
  | None => if reports_error s e then None else currentFile s
  end.
Proof.
  by_event e f.
  all: try (checks f; straight; reflexivity).
  all: branches; try reflexivity; try assumption.
Qed.

(** Only a recognize click with a file selected issues a [POST /upload],
    and it issues one. *)
Lemma step_uploads (s : State) (e : Event) :
  filter is_upload (log (step s e)) =
  (filter is_upload (log s) ++
   match e, currentFile s with
   | RecognizeClick, Some f => [Fetch "/upload" "POST" [("file", f)]]
   | _, _ => []
   end)%list.
Proof.
  by_event e f.
  all: try (checks f; log_tail).
  all: branches; log_tail.
Qed.

Lemma step_uploaded (s : State) (e : Event) :
  uploaded (log (step s e)) =
  (uploaded (log s) ++
   match e, currentFile s with
   | RecognizeClick, Some f => [f]
   | _, _ => []
   end)%list.
Proof.
  unfold uploaded. by_event e f.
  all: try (checks f; log_tail).
  all: branches; log_tail.
Qed.

(** Selecting a file starts no request, whatever the file. *)
Lemma selection_fetches_nothing (s : State) (e : Event) (f : File) :
  selected e = Some f ->
  filter is_fetch (log (step s e)) = filter is_fetch (log s).
Proof.
  by_event e g; try discriminate; intros _.
  all: checks g; log_tail.
Qed.

Lemma step_notifications (s : State) (e : Event) :
  List.length (notifications s) <= 1 ->
  List.length (notifications (step s e)) <= 1.
Proof.
  intros Hn. by_event e f.
  all: try (checks f; straight; assumption).
  all: branches; try assumption; try (cbn; lia).
  etransitivity; [apply filter_length_le | assumption].
Qed.



(** ** Runs *)

Lemma run_notifications (s : State) (es : list Event) :
  List.length (notifications s) <= 1 ->
  List.length (notifications (run s es)) <= 1.
Proof.
  revert s. induction es as [|e es IH]; intros s Hn; [exact Hn|].
  cbn. apply IH, step_notifications, Hn.
Qed.



Lemma step_only_valid (s : State) (e : Event) :
  only_valid s -> only_valid (step s e).
Proof.
  intros [Hc Hu]. split.
  - intros g. rewrite step_currentFile.
    destruct (selected e) as [f|].
    + destruct (valid_file f) eqn:Hv; [|discriminate].
      intros [= <-]. exact Hv.
    + destruct (reports_error s e); [discriminate | apply Hc].
  - rewrite step_uploaded. apply Forall_app. split; [exact Hu|].
    destruct e; try constructor.
    destruct (currentFile s) as [f|] eqn:Hf; constructor; auto.
Qed.

Lemma constructor_only_valid (page : Elements) (notes : list Notification) :
  only_valid (constructor page notes).
Proof. split; [discriminate | constructor]. Qed.

Lemma run_only_valid (s : State) (es : list Event) :
  only_valid s -> only_valid (run s es).
Proof.
  revert s. induction es as [|e es IH]; intros s Hs; [exact Hs|].
  cbn. apply IH, step_only_valid, Hs.
Qed.

(** ** The order of preview and upload *)

Lemma step_log_extends (s : State) (e : Event) :
  exists d, log (step s e) = (log s ++ d)%list.
Proof.
  by_event e f.
  all: try (checks f; cbn).
  all: branches.
  all: rewrite <- ?app_assoc;
    first [ eexists; reflexivity | exists []; symmetry; apply app_nil_r ].
Qed.

Lemma step_upload_in (s : State) (e : Event) (d : list Effect) (f : File) :
  log (step s e) = (log s ++ d)%list ->
  In (upload_of f) d -> e = RecognizeClick /\ currentFile s = Some f.
Proof.
  intros Hd Hin.
  assert (Hf : In (upload_of f) (filter is_upload d))
    by (apply filter_In; split; [exact Hin | reflexivity]).
  pose proof (step_uploads s e) as Hs.
  rewrite Hd, filter_app in Hs. apply app_inv_head in Hs.
  rewrite Hs in Hf.
  destruct e; try contradiction.
  destruct (currentFile s) as [g|]; [|contradiction].
  destruct Hf as [Hf|[]]. injection Hf as ->. split; reflexivity.
Qed.

Lemma selection_starts_read (s : State) (e : Event) (f : File) :
  selected e = Some f -> valid_file f = true ->
  In (ReadAsDataURL f) (log (step s e)).
Proof.
  intros He Hv. revert He. by_event e g; try discriminate; intros [= ->].
  all: rewrite handleFileSelect_valid by assumption; cbn.
  all: rewrite !in_app_iff; cbn; auto 10.
Qed.

Lemma preview_first_app (l d : list Effect) :
  preview_first l ->
  (forall f, In (upload_of f) d -> In (ReadAsDataURL f) l) ->
  preview_first (l ++ d).
Proof.
  intros Hl Hd l1 l2 f Heq.
  apply app_eq_app in Heq. destruct Heq as [l' [[Hx Hr]|[Hx Hr]]].
  - destruct l' as [|x l'].
    + rewrite app_nil_r in Hx. subst l1. apply Hd.
      cbn in Hr. rewrite <- Hr. left. reflexivity.
    + injection Hr as <- _. apply (Hl l1 l' f Hx).
  - subst l1. apply in_or_app. left. apply Hd. rewrite Hr. apply in_elt.
Qed.

Lemma step_read_started (s : State) (e : Event) :
  read_started s -> read_started (step s e).
Proof.
  intros [Hc Hl]. destruct (step_log_extends s e) as [d Hd]. split.
  - intros g. rewrite step_currentFile.
    destruct (selected e) as [f|] eqn:He.
    + destruct (valid_file f) eqn:Hv; [|discriminate].
      intros [= <-]. apply selection_starts_read; assumption.
    + destruct (reports_error s e); [discriminate|].
      intros Hg. rewrite Hd. apply in_or_app. left. apply Hc, Hg.
  - rewrite Hd. apply preview_first_app; [exact Hl|].
    intros f Hin. apply Hc.
    apply (step_upload_in s e d f Hd Hin).
Qed.

Lemma constructor_read_started (page : Elements) (notes : list Notification) :
  read_started (constructor page notes).
Proof.
  split; [discriminate|].
  intros l1 l2 f Heq. cbn in Heq.
  destruct l1 as [|x [|y l1]]; discriminate.
Qed.

Lemma run_read_started (s : State) (es : list Event) :
  read_started s -> read_started (run s es).
Proof.
  revert s. induction es as [|e es IH]; intros s Hs; [exact Hs|].
  cbn. apply IH, step_read_started, Hs.
Qed.

(** ** File validation *)

(** C1.  [handleFileSelect] accepts a file exactly when its type is in
    [allowedTypes] and its size is at most 16 MiB, but a rejected file
    leaves no error message behind: [showError] writes the message into
    [fileName] and [resetFileSelection] overwrites it with the empty text
    in the same call, and no notification is raised.  Evaluated at a text
    file and at an image one byte over the limit. *)
Theorem rejection_leaves_no_message :
  (forall (f : File) (s : State),
      let s' := handleFileSelect (Some f) s in
      if valid_file f
      then currentFile s' = Some f /\ btn_disabled s' = false
      else currentFile s' = None /\ btn_disabled s' = true
           /\ textContent (fileName (elements s')) = ""
           /\ notifications s' = notifications s)
  /\ valid_file txt = false
  /\ textContent (fileName (elements (run start [DropFiles [txt]]))) = ""
  /\ notifications (run start [DropFiles [txt]]) = []
  /\ valid_file huge = false
  /\ textContent (fileName (elements (run start [InputChange [huge]]))) = ""
  /\ notifications (run start [InputChange [huge]]) = [].
Proof.
  split; [|repeat split].
  intros f s. cbv zeta. destruct (valid_file f) eqn:Hv.
  - rewrite handleFileSelect_valid by assumption. split; reflexivity.
  - rewrite handleFileSelect_invalid by assumption.
    destruct (includes allowedTypes (type f)); repeat split.
Qed.

(** C2.  When the server answers [success: false] with an error string,
    the text [showError] writes into [fileName] is overwritten with the
    empty text, and the only text left on display is the notification,
    which carries the string behind the prefix "Ошибка: " and so differs
    from it. *)
Theorem server_error_not_shown_verbatim :
  (forall (s : State) (text file : option string) (err : string),
      let s' := (recognizeText_try (mkUpload false text file (Some err)) ;;
                 recognizeText_finally) s in
      textContent (fileName (elements s')) = ""
      /\ map note_text (notifications s') = ["Ошибка: " ++ err]
      /\ "Ошибка: " ++ err <> err)
  /\ let s' := run start [DropFiles [png]; RecognizeClick; UploadFetched 3 true;
                          UploadParsed 3 (Some (mkUpload false None None
                                                         (Some "bad image")))] in
     textContent (fileName (elements s')) = ""
     /\ map note_text (notifications s') = ["Ошибка: bad image"].
Proof.
  split.
  - intros s text file err. cbv zeta. repeat split.
    apply prefixed_differs. cbn. discriminate.
  - cbv zeta. split; reflexivity.
Qed.

(** C3.  A file that fails the validation starts no request when it is
    selected, and no run of the page ever sends it to [/upload]. *)
Theorem invalid_file_never_uploaded
        (f : File) (s : State) (e : Event)
        (page : Elements) (notes : list Notification) (es : list Event) :
  valid_file f = false ->
  selected e = Some f ->
  filter is_fetch (log (handleFileSelect (Some f) s)) = filter is_fetch (log s)
  /\ tasks (handleFileSelect (Some f) s) = tasks s
  /\ filter is_fetch (log (step s e)) = filter is_fetch (log s)
  /\ currentFile (step s e) = None
  /\ ~ In f (uploaded (log (run (constructor page notes) es))).
Proof.
  intros Hv He. rewrite handleFileSelect_invalid by assumption.
  repeat split.
  - destruct (includes allowedTypes (type f)); log_tail.
  - destruct (includes allowedTypes (type f)); reflexivity.
  - apply selection_fetches_nothing with f. exact He.
  - rewrite step_currentFile, He, Hv. reflexivity.
  - intros Hin.
    destruct (run_only_valid (constructor page notes) es
                (constructor_only_valid page notes)) as [_ Hu].
    rewrite Forall_forall in Hu. apply Hu in Hin. congruence.
Qed.

Lemma invalid_file_never_uploaded_witness :
  valid_file txt = false
  /\ selected (DropFiles [txt]) = Some txt
  /\ filter is_fetch (log (step start (DropFiles [txt]))) = filter is_fetch (log start)
  /\ ~ In txt (uploaded (log (run (constructor blank_page [])
                                [DropFiles [txt]; RecognizeClick;
                                 DropFiles [png]; RecognizeClick]))).
Proof.
  split; [reflexivity|]. split; [reflexivity|].
  pose proof (invalid_file_never_uploaded txt start (DropFiles [txt]) blank_page []
                [DropFiles [txt]; RecognizeClick; DropFiles [png]; RecognizeClick]
                eq_refl eq_refl) as (_ & _ & Hf & _ & Hn).
  split; [exact Hf | exact Hn].
Defined.

(** ** Recognition *)

(** C9.  Without a selected file [recognizeText] only raises an error
    notification: no request is issued, and the selected file, the result
    text, the file-name display and every other element stay as they
    were. *)
Theorem recognizeText_without_file (s : State) :
  currentFile s = None ->
  let s' := recognizeText s in
  notifications s' =
    [mkNote (fresh s) error_class "Пожалуйста, сначала выберите файл"]
  /\ log s' = log s
  /\ tasks s' = (tasks s ++ [(fresh s, Timer (fresh s))])%list
  /\ currentFile s' = None
  /\ elements s' = elements s.
Proof.
  intros Hc. cbv zeta. unfold recognizeText. rewrite Hc.
  repeat split. exact Hc.
Qed.

Lemma recognizeText_without_file_witness :
  currentFile start = None
  /\ log (recognizeText start) = log start
  /\ elements (recognizeText start) = elements start.
Proof.
  split; [reflexivity|].
  pose proof (recognizeText_without_file start eq_refl) as (_ & Hl & _ & _ & He).
  split; [exact Hl | exact He].
Defined.


(** A second request, issued after such a selection, is still
    outstanding when the first one ends and its [finally] block enables
    the control. *)
Lemma other_request_end_enables_control :
  let s := run start [DropFiles [png]; RecognizeClick; DropFiles [png];
                      RecognizeClick; UploadFetched 3 false] in
  lookup_task 5 (tasks s) = Some UploadFetch /\ btn_disabled s = false.
Proof. cbv zeta. split; reflexivity. Qed.



(** ** Notifications *)

(** C5, as stated, fails: no notification is in the document before the
    first one is raised, nor after the timer of the last one has fired. *)
Lemma no_notification_visible :
  List.length (notifications start) <> 1
  /\ List.length (notifications (run start [CopyClick])) = 1
  /\ List.length (notifications (run start [CopyClick; Timeout 2])) <> 1.
Proof. repeat split; cbn; discriminate. Qed.

(** C5, as the code has it.  On a page whose markup holds at most one
    node of class [notification], at most one such node is in the
    document at every point of every run; [showNotification] removes the
    nodes there are and leaves exactly the new one. *)
Theorem at_most_one_notification
        (page : Elements) (notes : list Notification) (es : list Event)
        (s : State) (message type : string) :
  List.length notes <= 1 ->
  List.length (notifications (run (constructor page notes) es)) <= 1
  /\ notifications (showNotification message type s) =
     [mkNote (fresh s) ("notification notification-" ++ type) message].
Proof.
  intros Hn. split; [|reflexivity].
  apply run_notifications. exact Hn.
Qed.

Lemma at_most_one_notification_witness :
  List.length (@nil Notification) <= 1
  /\ List.length (notifications
                    (run (constructor blank_page [])
                         [CopyClick; DropFiles [png]; RecognizeClick;
                          UploadFetched 4 false; CopyClick])) <= 1.
Proof.
  split; [cbn; lia|].
  exact (proj1 (at_most_one_notification blank_page []
                  [CopyClick; DropFiles [png]; RecognizeClick;
                   UploadFetched 4 false; CopyClick]
                  start "" "" (Nat.le_0_l 1))).
Defined.

(** ** The selected file *)

(** C6, as stated, fails: with a file selected and nothing recognised
    yet, the copy button takes its error path (an error notification is
    raised) and the file stays selected. *)
Lemma copy_error_keeps_file :
  let s := run start [DropFiles [png]] in
  error_notified s = false
  /\ error_notified (step s CopyClick) = true
  /\ ~ (error_notified (step s CopyClick) = true ->
        currentFile (step s CopyClick) = None).
Proof.
  cbv zeta. repeat split. intros H. specialize (H eq_refl). discriminate H.
Qed.

(** C6, as the code has it.  The controller holds at most one file
    ([currentFile] is a single optional value, empty after construction);
    a step selecting a valid file stores that file, replacing any other;
    every path through [showError] (an invalid selection, a failed read,
    a failed recognition) and [resetFileSelection] itself clear it; every
    other step, the error notifications of [copyToClipboard] and of
    [recognizeText] without a file and the failure of the status check
    included, leaves it as it was. *)
Theorem currentFile_lifecycle :
  (forall page notes, currentFile (constructor page notes) = None)
  /\ (forall s e,
         currentFile (step s e) =
         match selected e with
         | Some f => if valid_file f then Some f else None
         | None => if reports_error s e then None else currentFile s
         end)
  /\ (forall s, currentFile (resetFileSelection s) = None)
  /\ (forall message s, currentFile (showError message s) = None)
  /\ (forall api s, currentFile (copyToClipboard api s) = currentFile s)
  /\ (forall s, currentFile (recognizeText s) = currentFile s)
  /\ (forall s, currentFile (checkSystemStatus_catch s) = currentFile s).
Proof.
  repeat split.
  - apply step_currentFile.
  - intros api s. unfold copyToClipboard. cbv zeta. destruct api.
    all: branches; reflexivity.
  - intros s. apply (step_currentFile s RecognizeClick).
Qed.

(** ** The flow from selection to result *)

(** C7, as stated, fails: the preview image is inserted when the file
    read completes, and a recognize click before that uploads the file
    while the upload area does not show it yet. *)
Lemma upload_before_preview_shown :
  let s := run start [DropFiles [png]; RecognizeClick] in
  ~ (In (upload_of png) (log s) ->
     innerHTML (uploadArea (elements s)) = ImagePreview png)
  /\ innerHTML (uploadArea (elements (step s (ReaderLoad 2)))) = ImagePreview png.
Proof.
  cbv zeta. split; [|reflexivity].
  intros H. assert (Hin : In (upload_of png)
                            (log (run start [DropFiles [png]; RecognizeClick])))
    by (do 6 right; left; reflexivity).
  specialize (H Hin). discriminate H.
Qed.

(** C7, as the code has it.  For a valid file, on a freshly constructed
    page: selecting the file looks at its type, then at its size, and
    then starts the preview read, without any request to [/upload]; the
    preview image enters the upload area when the read completes; the
    recognize click issues one [POST /upload] whose form carries the file
    in the field [file]; and the answer ends in the recognised text on
    display, or in an error notification when the server reports failure
    or the response cannot be read.  No step other than the recognize
    click sends a file, and in every run every upload comes after the
    start of the preview read of its file. *)
Theorem recognition_flow_order
        (f : File) (page : Elements) (data : option UploadData)
        (s : State) (e : Event)
        (notes : list Notification) (es : list Event) :
  valid_file f = true ->
  e <> RecognizeClick ->
  let s1 := run (constructor page []) [DropFiles [f]] in
  let s2 := step s1 (ReaderLoad 2) in
  let s3 := step s2 RecognizeClick in
  let s4 := step (step s3 (UploadFetched 3 true)) (UploadParsed 3 data) in
  (currentFile s1 = Some f
   /\ log s1 = [Fetch "/model_status" "GET" []; PreventDefault;
                Get f "type"; Get f "size"; ReadAsDataURL f; Get f "name"]
   /\ lookup_task 2 (tasks s1) = Some (Reader f))
  /\ (innerHTML (uploadArea (elements s2)) = ImagePreview f
      /\ log s2 = log s1)
  /\ (btn_disabled s2 = false
      /\ log s3 = (log s2 ++ [Fetch "/upload" "POST" [("file", f)]])%list
      /\ lookup_task 3 (tasks s3) = Some UploadFetch)
  /\ match data with
     | Some d =>
         if success d
         then textContent (resultText (elements s4)) = as_text (recognized_text d)
              /\ map note_text (notifications s4) = ["Текст успешно распознан!"]
         else map note_class (notifications s4) = [error_class]
              /\ map note_text (notifications s4) =
                 ["Ошибка: " ++ interpolate (error d)]
     | None =>
         map note_class (notifications s4) = [error_class]
         /\ map note_text (notifications s4) = [network_message]
     end
  /\ uploaded (log s4) = [f]
  /\ uploaded (log (step s e)) = uploaded (log s)
  /\ preview_first (log (run (constructor page notes) es)).
Proof.
  intros Hv He. cbv zeta. cbn [run fold_left step].
  unfold handleDrop, seq. rewrite handleFileSelect_valid by assumption.
  repeat match goal with |- _ /\ _ => split end; try reflexivity.
  - destruct data as [d|]; [|split; reflexivity].
    unfold settle. cbn. unfold seq, recognizeText_try.
    destruct (success d); split; reflexivity.
  - unfold settle. cbn. destruct data as [d|]; [|reflexivity].
    unfold seq, recognizeText_try. destruct (success d); reflexivity.
  - rewrite step_uploaded. destruct e; try apply app_nil_r. congruence.
  - apply (run_read_started (constructor page notes) es
             (constructor_read_started page notes)).
Qed.

Lemma recognition_flow_order_witness :
  valid_file png = true
  /\ DragLeave <> RecognizeClick
  /\ uploaded (log (run (constructor blank_page [])
                        [DropFiles [png]; ReaderLoad 2; RecognizeClick;
                         UploadFetched 3 true;
                         UploadParsed 3 (Some (mkUpload true (Some "text")
                                                        (Some "scan.png") None))]))
     = [png].
Proof.
  split; [reflexivity|]. split; [discriminate|].
  pose proof (recognition_flow_order png blank_page
                (Some (mkUpload true (Some "text") (Some "scan.png") None))
                start DragLeave [] [] eq_refl
                (fun H : DragLeave = RecognizeClick =>
                   eq_ind DragLeave
                          (fun e => match e with DragLeave => True | _ => False end)
                          I RecognizeClick H))
    as (_ & _ & _ & _ & Hu & _).
  exact Hu.
Defined.

(** C8.  When the fetch rejects or the response cannot be parsed, the
    generic network message is raised as an error notification and the
    call ends without another request; a recognize click with a file
    selected issues one [POST /upload], and no other step issues any. *)
Theorem network_failure_no_retry
        (s1 s2 s3 s4 : State) (t1 t2 : nat) (f : File) (e : Event) :
  lookup_task t1 (tasks s1) = Some UploadFetch ->
  lookup_task t2 (tasks s2) = Some UploadJson ->
  currentFile s3 = Some f ->
  e <> RecognizeClick ->
  (notifications (step s1 (UploadFetched t1 false)) =
     [mkNote (fresh s1) error_class network_message]
   /\ filter is_fetch (log (step s1 (UploadFetched t1 false))) =
      filter is_fetch (log s1)
   /\ tasks (step s1 (UploadFetched t1 false)) =
      (remove_task t1 (tasks s1) ++ [(fresh s1, Timer (fresh s1))])%list)
  /\ (notifications (step s2 (UploadParsed t2 None)) =
        [mkNote (fresh s2) error_class network_message]
      /\ filter is_fetch (log (step s2 (UploadParsed t2 None))) =
         filter is_fetch (log s2)
      /\ tasks (step s2 (UploadParsed t2 None)) =
         (remove_task t2 (tasks s2) ++ [(fresh s2, Timer (fresh s2))])%list)
  /\ log (step s3 RecognizeClick) =
     (log s3 ++ [Fetch "/upload" "POST" [("file", f)]])%list
  /\ filter is_upload (log (step s4 e)) = filter is_upload (log s4).
Proof.
  intros H1 H2 H3 He. cbn [step]. unfold settle, recognizeText.
  rewrite H1, H2, H3.
  repeat match goal with |- _ /\ _ => split end; try reflexivity.
  - log_tail.
  - log_tail.
  - pose proof (step_uploads s4 e) as Hs. cbn [step] in Hs. rewrite Hs.
    destruct e; try apply app_nil_r. congruence.
Qed.

Lemma network_failure_no_retry_witness :
  let s := run start [DropFiles [png]] in
  let s1 := step s RecognizeClick in
  let s2 := step s1 (UploadFetched 3 true) in
  lookup_task 3 (tasks s1) = Some UploadFetch
  /\ lookup_task 3 (tasks s2) = Some UploadJson
  /\ currentFile s = Some png
  /\ CopyClick <> RecognizeClick
  /\ notifications (step s1 (UploadFetched 3 false)) =
     [mkNote 4 error_class network_message]
  /\ notifications (step s2 (UploadParsed 3 None)) =
     [mkNote 4 error_class network_message].
Proof.
  cbv zeta. do 3 (split; [reflexivity|]). split; [discriminate|].
  pose proof (network_failure_no_retry
                (step (run start [DropFiles [png]]) RecognizeClick)
                (step (step (run start [DropFiles [png]]) RecognizeClick)
                      (UploadFetched 3 true))
                (run start [DropFiles [png]]) start 3 3 png CopyClick
                eq_refl eq_refl eq_refl
                (fun H : CopyClick = RecognizeClick =>
                   eq_ind CopyClick
                          (fun e => match e with CopyClick => True | _ => False end)
                          I RecognizeClick H))
    as ((Ha & _) & (Hb & _) & _).
  split; [exact Ha | exact Hb].
Defined.

(** C10.  A recognition that fails, by a rejected fetch, an unreadable
    response or an answer with [success: false], ends with no file
    selected and the recognize control enabled; that state is reached
    from a freshly constructed page whose control starts disabled. *)
Theorem failed_recognition_enables_without_file
        (s1 s2 : State) (t1 t2 : nat) (data : option UploadData) :
  lookup_task t1 (tasks s1) = Some UploadFetch ->
  lookup_task t2 (tasks s2) = Some UploadJson ->
  match data with Some d => success d = false | None => True end ->
  (currentFile (step s1 (UploadFetched t1 false)) = None
   /\ btn_disabled (step s1 (UploadFetched t1 false)) = false)
  /\ (currentFile (step s2 (UploadParsed t2 data)) = None
      /\ btn_disabled (step s2 (UploadParsed t2 data)) = false)
  /\ btn_disabled start = true
  /\ exists es,
      currentFile (run start es) = None /\ btn_disabled (run start es) = false.
Proof.
  intros H1 H2 Hd. cbn [step]. unfold settle. rewrite H1, H2.
  repeat match goal with |- _ /\ _ => split end; try reflexivity.
  - destruct data as [d|]; [|reflexivity].
    cbv beta iota in Hd. unfold seq, recognizeText_try.
    rewrite Hd. reflexivity.
  - exists [DropFiles [png]; RecognizeClick; UploadFetched 3 true;
            UploadParsed 3 (Some (mkUpload false None None (Some "bad image")))].
    split; reflexivity.
Qed.

Lemma failed_recognition_enables_without_file_witness :
  let s1 := run start [DropFiles [png]; RecognizeClick] in
  let s2 := step s1 (UploadFetched 3 true) in
  let d := mkUpload false None None (Some "bad image") in
  lookup_task 3 (tasks s1) = Some UploadFetch
  /\ lookup_task 3 (tasks s2) = Some UploadJson
  /\ success d = false
  /\ currentFile (step s2 (UploadParsed 3 (Some d))) = None
  /\ btn_disabled (step s2 (UploadParsed 3 (Some d))) = false.
Proof.
  cbv zeta. do 3 (split; [reflexivity|]).
  pose proof (failed_recognition_enables_without_file
                (run start [DropFiles [png]; RecognizeClick])
                (step (run start [DropFiles [png]; RecognizeClick])
                      (UploadFetched 3 true))
                3 3 (Some (mkUpload false None None (Some "bad image")))
                eq_refl eq_refl eq_refl)
    as (_ & (Hc & Hb) & _).
  split; [exact Hc | exact Hb].
Defined.

(** ** Identities of tasks and nodes *)

Lemma lookup_task_cons (tid i : nat) (t : Task) (l : list (nat * Task)) :
  lookup_task tid ((i, t) :: l) =
  if Nat.eqb i tid then Some t else lookup_task tid l.
Proof. reflexivity. Qed.

Lemma remove_task_cons (tid i : nat) (t : Task) (l : list (nat * Task)) :
  remove_task tid ((i, t) :: l) =
  if Nat.eqb i tid then l else (i, t) :: remove_task tid l.
Proof. reflexivity. Qed.

Lemma lookup_task_In (tid : nat) (l : list (nat * Task)) (t : Task) :
  lookup_task tid l = Some t -> In (tid, t) l.
Proof.
  induction l as [|[i u] l IH]; [discriminate|].
  rewrite lookup_task_cons. destruct (Nat.eqb i tid) eqn:Hi.
  - intros [= ->]. apply Nat.eqb_eq in Hi. subst. left. reflexivity.
  - intros H. right. apply IH, H.
Qed.

Lemma remove_task_incl (tid : nat) (l : list (nat * Task)) :
  incl (remove_task tid l) l.
Proof.
  induction l as [|[i u] l IH]; [apply incl_refl|].
  rewrite remove_task_cons. destruct (Nat.eqb i tid).
  - apply incl_tl, incl_refl.
  - apply incl_cons; [left; reflexivity | apply incl_tl, IH].
Qed.

Lemma Forall_remove_task (P : nat * Task -> Prop) (tid : nat)
      (l : list (nat * Task)) :
  Forall P l -> Forall P (remove_task tid l).
Proof. intros H. eapply incl_Forall; [apply remove_task_incl | exact H]. Qed.

Lemma remove_task_other (tid : nat) (l : list (nat * Task)) (i : nat) (t : Task) :
  i <> tid -> In (i, t) l -> In (i, t) (remove_task tid l).
Proof.
  intros Hi. induction l as [|[j u] l IH]; [easy|].
  rewrite remove_task_cons. intros [Hj|Hin].
  - injection Hj as -> ->. apply Nat.eqb_neq in Hi. rewrite Hi. left. reflexivity.
  - destruct (Nat.eqb j tid); [exact Hin | right; apply IH, Hin].
Qed.

Lemma lookup_task_app (tid : nat) (l l' : list (nat * Task)) :
  lookup_task tid l = None ->
  lookup_task tid (l ++ l') = lookup_task tid l'.
Proof.
  induction l as [|[i u] l IH]; [reflexivity|].
  rewrite <- app_comm_cons, !lookup_task_cons.
  destruct (Nat.eqb i tid); [discriminate | exact IH].
Qed.

Lemma below_lookup (n tid : nat) (l : list (nat * Task)) :
  Forall (fun p => fst p < n) l -> n <= tid -> lookup_task tid l = None.
Proof.
  intros Hl Hn. induction Hl as [|[i u] l Hi _ IH]; [reflexivity|].
  rewrite lookup_task_cons. cbn in Hi.
  destruct (Nat.eqb i tid) eqn:E; [apply Nat.eqb_eq in E; lia | exact IH].
Qed.

Lemma below_mono (A : Type) (f : A -> nat) (n m : nat) (l : list A) :
  Forall (fun p => f p < n) l -> n <= m -> Forall (fun p => f p < m) l.
Proof.
  intros Hl Hn. eapply Forall_impl; [|exact Hl]. cbn. intros a Ha. lia.
Qed.

Lemma lookup_below (n tid : nat) (l : list (nat * Task)) (t : Task) :
  Forall (fun p => fst p < n) l -> lookup_task tid l = Some t -> tid < n.
Proof.
  intros Hl Ht. apply lookup_task_In in Ht.
  rewrite Forall_forall in Hl. apply (Hl _ Ht).
Qed.

Lemma filter_Forall (A : Type) (P : A -> Prop) (f : A -> bool) (l : list A) :
  Forall P l -> Forall P (filter f l).
Proof. intros H. eapply incl_Forall; [apply incl_filter | exact H]. Qed.

Lemma below_notin (n i : nat) (l : list (nat * Task)) :
  Forall (fun p => fst p < n) l -> n <= i -> ~ In i (map fst l).
Proof.
  intros Hl Hn Hin. apply in_map_iff in Hin. destruct Hin as [p [<- Hp]].
  rewrite Forall_forall in Hl. specialize (Hl p Hp). lia.
Qed.

Lemma NoDup_remove_task (tid : nat) (l : list (nat * Task)) :
  NoDup (map fst l) -> NoDup (map fst (remove_task tid l)).
Proof.
  induction l as [|[i u] l IH]; [trivial|].
  rewrite remove_task_cons. cbn. intros H. inversion H as [|? ? Hi Hl]; subst.
  destruct (Nat.eqb i tid); [exact Hl|].
  cbn. constructor; [|apply IH, Hl].
  intros Hin. apply Hi. revert Hin. apply incl_map, remove_task_incl.
Qed.

Lemma remove_task_notin (tid : nat) (l : list (nat * Task)) :
  NoDup (map fst l) -> ~ In tid (map fst (remove_task tid l)).
Proof.
  induction l as [|[i u] l IH]; [easy|].
  rewrite remove_task_cons. cbn. intros H. inversion H as [|? ? Hi Hl]; subst.
  destruct (Nat.eqb i tid) eqn:E.
  - apply Nat.eqb_eq in E. subst. exact Hi.
  - apply Nat.eqb_neq in E. cbn. intros [Heq|Hin]; [easy | exact (IH Hl Hin)].
Qed.

Lemma NoDup_tasks_snoc (l : list (nat * Task)) (i : nat) (t : Task) :
  NoDup (map fst l) -> ~ In i (map fst l) -> NoDup (map fst (l ++ [(i, t)])).
Proof.
  intros Hl Hi. rewrite map_app. cbn.
  apply NoDup_app; [exact Hl | repeat constructor; easy |].
  intros a Ha [<-|[]]. exact (Hi Ha).
Qed.

Lemma remove_task_below_notin (n i tid : nat) (l : list (nat * Task)) :
  Forall (fun p => fst p < n) l -> n <= i ->
  ~ In i (map fst (remove_task tid l)).
Proof.
  intros Hl Hn. apply below_notin with n; [|exact Hn].
  apply Forall_remove_task, Hl.
Qed.

(** Close a goal of [well_numbered] after the branches of a step. *)
Ltac numbered :=
  repeat match goal with
         | Hl : Forall (fun p => fst p < ?n) ?l, H : lookup_task ?t ?l = Some _ |- _ =>
             lazymatch goal with
             | _ : t < n |- _ => fail
             | _ => pose proof (lookup_below n t l _ Hl H)
             end
         end;
  repeat split; cbn;
  repeat first
    [ assumption
    | apply NoDup_remove_task
    | apply NoDup_tasks_snoc
    | apply remove_task_notin
    | eapply remove_task_below_notin; [eassumption | lia]
    | eapply below_notin; [eassumption | lia]
    | apply Forall_app; split
    | apply Forall_cons; [cbn; first [lia | reflexivity | exact I]|]
    | apply Forall_nil
    | apply Forall_remove_task
    | apply filter_Forall
    | eapply below_mono; [eassumption | lia] ].

Lemma step_well_numbered (s : State) (e : Event) :
  well_numbered s -> well_numbered (step s e).
Proof.
  intros (Hd & Ht & Hn & Ho). by_event e f.
  all: try (checks f; cbn).
  all: branches.
  all: numbered.
Qed.

Lemma constructor_well_numbered (page : Elements) (notes : list Notification) :
  well_numbered (constructor page notes).
Proof.
  unfold well_numbered. cbn. split; [|split; [|split]].
  - constructor; [intros [] | constructor].
  - constructor; [cbn; lia | constructor].
  - assert (H : Forall (fun k => k <= list_max (map note_id notes))
                       (map note_id notes))
      by (apply list_max_le; reflexivity).
    rewrite Forall_map in H. eapply Forall_impl; [|exact H].
    cbn. intros n Hn. lia.
  - repeat constructor.
Qed.

Lemma run_well_numbered (s : State) (es : list Event) :
  well_numbered s -> well_numbered (run s es).
Proof.
  revert s. induction es as [|e es IH]; intros s Hs; [exact Hs|].
  cbn. apply IH, step_well_numbered, Hs.
Qed.

Lemma fresh_not_pending (s : State) :
  well_numbered s -> lookup_task (fresh s) (tasks s) = None.
Proof. intros (_ & Ht & _). apply below_lookup with (fresh s); [exact Ht | lia]. Qed.

Lemma lookup_task_app_some (tid : nat) (l l' : list (nat * Task)) (t : Task) :
  lookup_task tid l = Some t -> lookup_task tid (l ++ l') = Some t.
Proof.
  induction l as [|[i u] l IH]; [discriminate|].
  rewrite <- app_comm_cons, !lookup_task_cons.
  destruct (Nat.eqb i tid); [trivial | exact IH].
Qed.

Lemma lookup_remove_other (tid i : nat) (l : list (nat * Task)) :
  i <> tid -> lookup_task i (remove_task tid l) = lookup_task i l.
Proof.
  intros Hi. induction l as [|[j u] l IH]; [reflexivity|].
  rewrite remove_task_cons, lookup_task_cons.
  destruct (Nat.eqb j tid) eqn:E.
  - apply Nat.eqb_eq in E. subst j.
    destruct (Nat.eqb tid i) eqn:E'; [apply Nat.eqb_eq in E'; congruence | reflexivity].
  - rewrite lookup_task_cons. destruct (Nat.eqb j i); [reflexivity | exact IH].
Qed.

Lemma lookup_snoc_fresh (n : nat) (l : list (nat * Task)) (t : Task) :
  Forall (fun p => fst p < n) l -> lookup_task n (l ++ [(n, t)]) = Some t.
Proof.
  intros Hl. rewrite lookup_task_app by (apply below_lookup with n; [exact Hl | lia]).
  rewrite lookup_task_cons, Nat.eqb_refl. reflexivity.
Qed.

Lemma timer_owns (s : State) (tid note : nat) :
  well_numbered s -> lookup_task tid (tasks s) = Some (Timer note) -> note = tid.
Proof.
  intros (_ & _ & _ & Ho) H. apply lookup_task_In in H.
  rewrite Forall_forall in Ho. apply (Ho _ H).
Qed.

(** Finish a goal of [timers_armed] after the branches of a step. *)
Ltac armed :=
  match goal with
  | Ha : forall n, In n (notifications ?s) -> _,
    Ht : Forall _ (tasks ?s) |- _ =>
      let n := fresh "n" in
      let Hin := fresh "Hin" in
      intros n Hin; cbn in Hin |- *;
      first
        [ (* the notification just raised *)
          destruct Hin as [<-|[]]; cbn;
          apply lookup_snoc_fresh;
          first [exact Ht | apply Forall_remove_task; exact Ht]
        | (* a timer fired *)
          apply filter_In in Hin; destruct Hin as [Hin Hne];
          apply Bool.negb_true_iff, Nat.eqb_neq in Hne;
          rewrite lookup_remove_other by congruence; apply Ha, Hin
        | (* an older notification *)
          specialize (Ha n Hin);
          first
            [ exact Ha
            | apply lookup_task_app_some;
              first [ exact Ha
                    | rewrite lookup_remove_other by congruence; exact Ha ]
            | rewrite lookup_remove_other by congruence; exact Ha ] ]
  end.

Lemma step_timers_armed (s : State) (e : Event) :
  well_numbered s -> timers_armed s -> timers_armed (step s e).
Proof.
  intros Hw Ha. pose proof Hw as (_ & Ht & _). unfold timers_armed in *.
  by_event e f.
  all: try (checks f; cbn).
  all: branches.
  all: repeat match goal with
              | Hw : well_numbered ?s0,
                H : lookup_task ?t (tasks ?s0) = Some (Timer ?m) |- _ =>
                  tryif constr_eq t m then fail
                  else (pose proof (timer_owns s0 t m Hw H); subst m)
              end.
  all: solve [armed].
Qed.

Lemma run_timers_armed (s : State) (es : list Event) :
  well_numbered s -> timers_armed s -> timers_armed (run s es).
Proof.
  revert s. induction es as [|e es IH]; intros s Hw Ha; [exact Ha|].
  cbn. apply IH; [apply step_well_numbered, Hw | apply step_timers_armed; assumption].
Qed.

(** ** Notifications and their timers *)

Lemma showNotification_tasks (message kind : string) (s : State) :
  tasks (showNotification message kind s) =
  (tasks s ++ [(fresh s, Timer (fresh s))])%list.
Proof. reflexivity. Qed.

(** X1.  In every state the page reaches, a notification that is raised
    is taken away again by the timer set for it and by no other timer:
    firing the timer of an earlier notification, or anything that is not
    a pending timer, leaves the new notification in place. *)
Theorem notification_removed_by_own_timer
        (page : Elements) (notes : list Notification) (es : list Event)
        (message kind : string) (tid : nat) :
  let s := run (constructor page notes) es in
  notifications (step (showNotification message kind s) (Timeout tid)) =
  if Nat.eqb tid (fresh s)
  then []
  else [mkNote (fresh s) ("notification notification-" ++ kind) message].
Proof.
  cbv zeta. set (s := run (constructor page notes) es).
  assert (Hw : well_numbered s)
    by (apply run_well_numbered, constructor_well_numbered).
  pose proof Hw as (_ & Ht & _).
  cbn [step]. unfold settle. rewrite showNotification_tasks.
  destruct (Nat.eqb tid (fresh s)) eqn:E.
  - apply Nat.eqb_eq in E. subst tid.
    rewrite (lookup_snoc_fresh _ _ _ Ht). cbn. rewrite Nat.eqb_refl. reflexivity.
  - assert (E' : Nat.eqb (fresh s) tid = false)
      by (rewrite Nat.eqb_sym; exact E).
    destruct (lookup_task tid (tasks s)) as [t|] eqn:Hl.
    + rewrite (lookup_task_app_some _ _ _ _ Hl).
      destruct t; try reflexivity.
      pose proof (timer_owns s tid note Hw Hl). subst note.
      cbn. rewrite E'. reflexivity.
    + rewrite (lookup_task_app _ _ _ Hl), lookup_task_cons, E'. reflexivity.
Qed.

(** X2.  On a page whose markup holds no notification, every
    notification in the document has its removal timer pending, and when
    that timer fires the notification is gone. *)
Theorem every_notification_has_its_timer
        (page : Elements) (es : list Event) (n : Notification) :
  let s := run (constructor page []) es in
  In n (notifications s) ->
  lookup_task (note_id n) (tasks s) = Some (Timer (note_id n))
  /\ ~ In n (notifications (step s (Timeout (note_id n)))).
Proof.
  cbv zeta. intros Hin.
  assert (Ha : timers_armed (run (constructor page []) es)).
  { apply run_timers_armed; [apply constructor_well_numbered|].
    intros m []. }
  specialize (Ha n Hin). split; [exact Ha|].
  cbn [step]. unfold settle. rewrite Ha. cbn.
  intros Hf. apply filter_In in Hf. destruct Hf as [_ Hf].
  rewrite Nat.eqb_refl in Hf. discriminate.
Qed.

Lemma every_notification_has_its_timer_witness :
  let n := mkNote 2 error_class "Нет текста для копирования" in
  In n (notifications (run (constructor blank_page []) [CopyClick]))
  /\ ~ In n (notifications (run (constructor blank_page [])
                                [CopyClick; Timeout 2])).
Proof.
  cbv zeta.
  assert (Hin : In (mkNote 2 error_class "Нет текста для копирования")
                   (notifications (run (constructor blank_page []) [CopyClick])))
    by (left; reflexivity).
  split; [exact Hin|].
  exact (proj2 (every_notification_has_its_timer blank_page [CopyClick]
                  (mkNote 2 error_class "Нет текста для копирования") Hin)).
Defined.

(** ** The clipboard *)

Lemma copyable_spec (text : string) :
  copyable text = true <-> text <> "" /\ text <> placeholder.
Proof.
  unfold copyable. rewrite Bool.negb_true_iff, Bool.orb_false_iff.
  rewrite !String.eqb_neq. reflexivity.
Qed.

Lemma pending_clipboard_clean (s : State) (tid : nat) (text : string) :
  clipboard_clean s -> lookup_task tid (tasks s) = Some (Clipboard text) ->
  copyable text = true.
Proof.
  intros [_ Ht] H. apply lookup_task_In in H.
  rewrite Forall_forall in Ht. apply (Ht _ H).
Qed.

Lemma step_clipboard_clean (s : State) (e : Event) :
  clipboard_clean s -> clipboard_clean (step s e).
Proof.
  intros Hc. pose proof Hc as [Hl Ht]. unfold clipboard_clean, copied in Hl, Ht |- *.
  by_event e f.
  all: try (checks f; cbn).
  all: branches.
  all: repeat match goal with
              | Hc : clipboard_clean ?s0,
                H : lookup_task ?t (tasks ?s0) = Some (Clipboard ?x) |- _ =>
                  lazymatch goal with
                  | _ : copyable x = true |- _ => fail
                  | _ => pose proof (pending_clipboard_clean s0 t x Hc H)
                  end
              end.
  all: split; cbn; rewrite ?flat_map_app; cbn;
    repeat first
      [ assumption
      | apply Forall_app; split
      | apply Forall_cons;
        [cbn; first [ assumption | exact I
                    | unfold copyable;
                      match goal with
                      | H : (_ || _)%bool = false |- _ => rewrite H; reflexivity
                      end ]|]
      | apply Forall_nil
      | apply Forall_remove_task ].
Qed.

Lemma constructor_clipboard_clean (page : Elements) (notes : list Notification) :
  clipboard_clean (constructor page notes).
Proof. split; cbn; repeat constructor. Qed.

Lemma run_clipboard_clean (s : State) (es : list Event) :
  clipboard_clean s -> clipboard_clean (run s es).
Proof.
  revert s. induction es as [|e es IH]; intros s Hs; [exact Hs|].
  cbn. apply IH, step_clipboard_clean, Hs.
Qed.

(** X3.  Whatever happens on the page, neither route to the clipboard
    (the clipboard API or the [execCommand] fallback) is ever handed the
    empty text or the placeholder of the result area. *)
Theorem clipboard_never_gets_placeholder
        (page : Elements) (notes : list Notification) (es : list Event)
        (text : string) :
  In text (copied (log (run (constructor page notes) es))) ->
  text <> "" /\ text <> placeholder.
Proof.
  intros Hin. apply copyable_spec.
  destruct (run_clipboard_clean _ es (constructor_clipboard_clean page notes))
    as [Hl _].
  rewrite Forall_forall in Hl. apply Hl, Hin.
Qed.

Lemma clipboard_never_gets_placeholder_witness :
  let es := [DropFiles [png]; RecognizeClick; UploadFetched 3 true;
             UploadParsed 3 (Some (mkUpload true (Some "text") None None));
             CopyClick; ClipboardSettled 5 false] in
  In "text" (copied (log (run (constructor blank_page []) es)))
  /\ "text" <> placeholder.
Proof.
  cbv zeta.
  assert (Hin : In "text"
                   (copied (log (run (constructor blank_page [])
                      [DropFiles [png]; RecognizeClick; UploadFetched 3 true;
                       UploadParsed 3 (Some (mkUpload true (Some "text") None None));
                       CopyClick; ClipboardSettled 5 false]))))
    by (left; reflexivity).
  split; [exact Hin|].
  exact (proj2 (clipboard_never_gets_placeholder blank_page []
                  [DropFiles [png]; RecognizeClick; UploadFetched 3 true;
                   UploadParsed 3 (Some (mkUpload true (Some "text") None None));
                   CopyClick; ClipboardSettled 5 false]
                  "text" Hin)).
Defined.

(** X4.  A click on the copy button in any state the page reaches.
    With a text other than the empty text and the placeholder in the
    result area: where [navigator.clipboard] is defined, exactly that
    text is passed to [writeText] and nothing is shown until the call
    settles; when it is fulfilled a success notification is raised, when
    it is rejected the fallback copies the same text by [execCommand]
    and raises its own success notification.  Where [navigator.clipboard]
    is undefined, [writeText] is never called: within the click the
    fallback copies the text once and raises its success notification.
    The selection and the elements stay as they were throughout.
    Otherwise nothing is copied, no clipboard call is left pending and
    the error notification is raised, in either kind of browser. *)
Theorem copyToClipboard_outcome
        (page : Elements) (notes : list Notification) (es : list Event)
        (ok : bool) :
  let s := run (constructor page notes) es in
  let text := textContent (resultText (elements s)) in
  let s1 := step s CopyClick in
  let s2 := step s1 (ClipboardSettled (fresh s) ok) in
  let s3 := step s CopyClickNoApi in
  if copyable text
  then (log s1 = (log s ++ [ClipboardWrite text])%list
        /\ notifications s1 = notifications s
        /\ lookup_task (fresh s) (tasks s1) = Some (Clipboard text)
        /\ log s2 = (log s1 ++ if ok then [] else [ExecCopy text])%list
        /\ notifications s2 =
           [mkNote (S (fresh s)) success_class
                   (if ok then "Текст скопирован в буфер обмена!"
                    else "Текст скопирован!")]
        /\ elements s2 = elements s
        /\ currentFile s2 = currentFile s)
       /\ (log s3 = (log s ++ [ExecCopy text])%list
           /\ notifications s3 =
              [mkNote (fresh s) success_class "Текст скопирован!"]
           /\ tasks s3 = (tasks s ++ [(fresh s, Timer (fresh s))])%list
           /\ elements s3 = elements s
           /\ currentFile s3 = currentFile s)
  else log s1 = log s
       /\ notifications s1 =
          [mkNote (fresh s) error_class "Нет текста для копирования"]
       /\ tasks s1 = (tasks s ++ [(fresh s, Timer (fresh s))])%list
       /\ s2 = s1
       /\ s3 = s1.
Proof.
  cbv zeta. set (s := run (constructor page notes) es).
  assert (Hw : well_numbered s)
    by (apply run_well_numbered, constructor_well_numbered).
  pose proof Hw as (_ & Ht & _).
  cbn [step]. unfold settle, copyToClipboard, copyable.
  destruct (String.eqb (textContent (resultText (elements s))) ""
            || String.eqb (textContent (resultText (elements s))) placeholder)
    eqn:E; cbn [negb].
  - rewrite showNotification_tasks, (lookup_snoc_fresh _ _ _ Ht).
    repeat split.
  - unfold seq. cbn [tasks spawn emit].
    rewrite (lookup_snoc_fresh _ _ _ Ht).
    destruct ok; cbn; rewrite ?app_nil_r; repeat split.
Qed.

(** ** The status check *)

Lemma step_status_requests (s : State) (e : Event) :
  filter is_status_request (log (step s e)) = filter is_status_request (log s).
Proof.
  by_event e f.
  all: try (checks f; log_tail).
  all: branches; log_tail.
Qed.

(** X5.  The page asks for the model status once, when the controller
    is constructed, and never again, whatever the user does and however
    the request ends. *)
Theorem status_requested_once
        (page : Elements) (notes : list Notification) (es : list Event) :
  filter is_status_request (log (run (constructor page notes) es)) =
  [Fetch "/model_status" "GET" []].
Proof.
  assert (H : forall s, filter is_status_request (log (run s es)) =
                        filter is_status_request (log s)).
  { induction es as [|e es IH]; intros s; [reflexivity|].
    change (run s (e :: es)) with (run (step s e) es).
    rewrite IH. apply step_status_requests. }
  rewrite H. reflexivity.
Qed.

(** X6.  The status check changes nothing but the status element.  A
    rejected request or an unreadable answer ends in the error text with
    the error class; a parsed answer shows the server's status text (the
    empty text when the field is missing) with the demo class exactly
    when the engine is [pillow], and the available class otherwise. *)
Theorem status_check_outcome
        (s1 s2 s : State) (t1 t2 tid : nat) (ok : bool)
        (data data' : option StatusData) :
  lookup_task t1 (tasks s1) = Some StatusFetch ->
  lookup_task t2 (tasks s2) = Some StatusJson ->
  systemStatus (elements (step s1 (StatusFetched t1 false))) =
    mkStatus "Ошибка проверки" "status-value status-error"
  /\ elements (step s1 (StatusFetched t1 true)) = elements s1
  /\ match data with
     | Some d =>
         let st := systemStatus (elements (step s2 (StatusParsed t2 data))) in
         status_text st = as_text (status d)
         /\ (className st = "status-value status-demo"
             <-> engine d = Some "pillow")
         /\ (className st = "status-value status-available"
             <-> engine d <> Some "pillow")
     | None =>
         systemStatus (elements (step s2 (StatusParsed t2 data))) =
           mkStatus "Ошибка проверки" "status-value status-error"
     end
  /\ (same_but_status (elements (step s (StatusFetched tid ok))) (elements s)
      /\ currentFile (step s (StatusFetched tid ok)) = currentFile s
      /\ notifications (step s (StatusFetched tid ok)) = notifications s)
  /\ (same_but_status (elements (step s (StatusParsed tid data'))) (elements s)
      /\ currentFile (step s (StatusParsed tid data')) = currentFile s
      /\ notifications (step s (StatusParsed tid data')) = notifications s).
Proof.
  intros H1 H2. cbn [step]. unfold settle. rewrite H1, H2.
  split; [reflexivity|]. split; [reflexivity|]. split; [|split].
  - destruct data as [d|]; [|reflexivity]. cbv zeta.
    unfold checkSystemStatus_try, seq.
    destruct (engine d) as [en|]; [destruct (String.eqb_spec en "pillow")|];
      cbn; repeat split; intros; subst; try congruence; try discriminate.
  - destruct (lookup_task tid (tasks s)) as [[]|]; try destruct ok;
      repeat split.
  - destruct (lookup_task tid (tasks s)) as [[]|]; try destruct data' as [d|];
      try (unfold checkSystemStatus_try, seq;
           destruct (match engine d with
                     | Some e => String.eqb e "pillow"
                     | None => false
                     end));
      repeat split.
Qed.

Lemma status_check_outcome_witness :
  let d := mkStatusData (Some "ready") (Some "pillow") in
  lookup_task 1 (tasks start) = Some StatusFetch
  /\ lookup_task 1 (tasks (step start (StatusFetched 1 true))) = Some StatusJson
  /\ systemStatus (elements (run start [StatusFetched 1 true;
                                         StatusParsed 1 (Some d)])) =
     mkStatus "ready" "status-value status-demo".
Proof.
  cbv zeta. split; [reflexivity|]. split; [reflexivity|].
  pose proof (status_check_outcome
                start (step start (StatusFetched 1 true)) start 1 1 1 true
                (Some (mkStatusData (Some "ready") (Some "pillow"))) None
                eq_refl eq_refl) as (_ & _ & (Ht & Hc & _) & _).
  cbv zeta in Ht, Hc.
  destruct (systemStatus (elements (run start [StatusFetched 1 true;
              StatusParsed 1 (Some (mkStatusData (Some "ready") (Some "pillow")))])))
    as [t c] eqn:E.
  change (run start [StatusFetched 1 true;
              StatusParsed 1 (Some (mkStatusData (Some "ready") (Some "pillow")))])
    with (step (step start (StatusFetched 1 true))
               (StatusParsed 1 (Some (mkStatusData (Some "ready") (Some "pillow")))))
    in E.
  rewrite E in Ht, Hc. cbn in Ht, Hc.
  rewrite Ht, (proj2 Hc eq_refl). reflexivity.
Defined.

(** ** Dragging and the file dialog *)

(** X7.  The drag highlight of the upload area is switched on by
    [dragover] and off by [dragleave] and by every [drop], whether the
    dropped file is accepted, rejected or missing; nothing else, the
    replacement of the area content by a preview or by the default view
    included, touches it. *)
Theorem drag_highlight (s : State) (e : Event) :
  drag_over (uploadArea (elements (step s e))) =
  match e with
  | DragOver => true
  | DragLeave => false
  | DropFiles _ => false
  | _ => drag_over (uploadArea (elements s))
  end.
Proof.
  by_event e f.
  all: try (checks f; reflexivity).
  all: branches; reflexivity.
Qed.

(** X8.  The file dialog is opened by a click on the choose button and
    by a click in the upload area on a target of class [image_field], once
    each, and by nothing else. *)
Theorem file_dialog_openers (s : State) (e : Event) :
  filter is_input_click (log (step s e)) =
  (filter is_input_click (log s) ++
   match e with
   | ChooseClick => [InputClick]
   | AreaClick true => [InputClick]
   | _ => []
   end)%list.
Proof.
  by_event e f.
  all: try (checks f; log_tail).
  all: branches; log_tail.
Qed.

(** ** Selection, recognition and the recognize control *)

Lemma step_never_locked (s : State) (e : Event) :
  never_locked s -> never_locked (step s e).
Proof.
  unfold never_locked, upload_pending, btn_disabled. intros Hs.
  by_event e f.
  all: try (checks f; cbn; intros Hf Hd; try discriminate; try congruence;
            auto).
  all: branches; cbn; intros Hf Hd; try discriminate; try congruence.
  all: rewrite ?existsb_app; cbn; rewrite ?Bool.orb_true_r, ?Bool.orb_false_r;
    try reflexivity.
  all: try (erewrite remove_task_keeps by (eassumption || reflexivity)).
  all: try (apply Hs; [congruence | assumption]).
Qed.

Lemma run_never_locked (s : State) (es : list Event) :
  never_locked s -> never_locked (run s es).
Proof.
  revert s. induction es as [|e es IH]; intros s Hs; [exact Hs|].
  cbn. apply IH, step_never_locked, Hs.
Qed.

(** X9.  The user is never locked out: in every state the page reaches,
    if a file is selected and the recognize control is disabled, then a
    recognition is outstanding (whose end will enable the control). *)
Theorem selected_file_never_locked
        (page : Elements) (notes : list Notification) (es : list Event) :
  let s := run (constructor page notes) es in
  currentFile s <> None -> btn_disabled s = true -> upload_pending s = true.
Proof.
  cbv zeta. apply run_never_locked. intros H. contradiction H. reflexivity.
Qed.

Lemma selected_file_never_locked_witness :
  let s := run (constructor blank_page []) [DropFiles [png]; RecognizeClick] in
  currentFile s <> None /\ btn_disabled s = true /\ upload_pending s = true.
Proof.
  cbv zeta.
  assert (Hf : currentFile (run (constructor blank_page [])
                              [DropFiles [png]; RecognizeClick]) <> None)
    by discriminate.
  split; [exact Hf|]. split; [reflexivity|].
  exact (selected_file_never_locked blank_page []
           [DropFiles [png]; RecognizeClick] Hf eq_refl).
Defined.

(** X10.  Selecting a valid file puts the placeholder back into the
    result area and the name of the file into both name displays, so the
    result of an earlier recognition can no longer be copied: a click on
    the copy button then raises the error notification and hands nothing
    to the clipboard. *)
Theorem new_selection_hides_result (s : State) (e : Event) (f : File) :
  selected e = Some f ->
  valid_file f = true ->
  let s1 := step s e in
  resultText (elements s1) = mkLabel placeholder "#666"
  /\ fileName (elements s1) = mkLabel ("Выбран файл: " ++ name f) "#4CAF50"
  /\ fileNameDisplay (elements s1) = "Файл: " ++ name f
  /\ copied (log (step s1 CopyClick)) = copied (log s)
  /\ tasks (step s1 CopyClick) =
     (tasks s1 ++ [(fresh s1, Timer (fresh s1))])%list
  /\ map note_text (notifications (step s1 CopyClick)) =
     ["Нет текста для копирования"]
  /\ error_notified (step s1 CopyClick) = true
  /\ step s1 CopyClickNoApi = step s1 CopyClick.
Proof.
  intros He Hv. cbv zeta. revert He.
  by_event e g; try discriminate; intros [= ->].
  all: rewrite handleFileSelect_valid by assumption.
  all: unfold copied; cbn; rewrite ?flat_map_app; cbn; rewrite ?app_nil_r.
  all: repeat split.
Qed.

Lemma new_selection_hides_result_witness :
  let s := run start [DropFiles [png]; RecognizeClick; UploadFetched 3 true;
                      UploadParsed 3 (Some (mkUpload true (Some "text") None None))] in
  selected (InputChange [png]) = Some png
  /\ valid_file png = true
  /\ textContent (resultText (elements s)) = "text"
  /\ resultText (elements (step s (InputChange [png]))) = mkLabel placeholder "#666"
  /\ copied (log (step (step s (InputChange [png])) CopyClick)) = copied (log s).
Proof.
  cbv zeta. do 3 (split; [reflexivity|]).
  pose proof (new_selection_hides_result
                (run start [DropFiles [png]; RecognizeClick; UploadFetched 3 true;
                   UploadParsed 3 (Some (mkUpload true (Some "text") None None))])
                (InputChange [png]) png eq_refl eq_refl)
    as (Hr & _ & _ & Hc & _).
  split; [exact Hr | exact Hc].
Defined.

(** X11.  Every path into [showError] (a rejected selection, a failed
    read, a failed recognition) leaves the same view: no file selected,
    the file input emptied, the name line empty in the error colour and
    the upload area back to the icon, with no request started; the result
    area and the file-name display keep what they showed.  The recognize
    control ends disabled, except at the end of a recognition, which
    enables it. *)
Theorem error_paths_reset_view (s : State) (e : Event) :
  reports_error s e = true ->
  view_reset (step s e)
  /\ resultText (elements (step s e)) = resultText (elements s)
  /\ fileNameDisplay (elements (step s e)) = fileNameDisplay (elements s)
  /\ btn_disabled (step s e) = negb (ends_recognition s e)
  /\ filter is_fetch (log (step s e)) = filter is_fetch (log s).
Proof.
  unfold view_reset, btn_disabled.
  destruct e as [ |[|f ?]| | |[|f ?]| | | | | | | | | | | | ];
    cbn [reports_error ends_recognition]; try discriminate.
  all: cbn [step]; unfold settle, handleDrop, recognizeText_try, seq.
  all: try (intros Hv; checks f; try discriminate; log_tail; repeat split).
  all: destruct (lookup_task tid (tasks s)) as [[]|]; try discriminate.
  all: try (destruct ok; try discriminate; intros _; log_tail; repeat split).
  all: try (destruct data as [d|];
            [destruct (success d); try discriminate|];
            intros _; log_tail; repeat split).
  all: intros _; log_tail; repeat split.
Qed.

Lemma error_paths_reset_view_witness :
  let s := run start [DropFiles [png]; RecognizeClick] in
  reports_error s (UploadFetched 3 false) = true
  /\ view_reset (step s (UploadFetched 3 false))
  /\ btn_disabled (step s (UploadFetched 3 false)) = false.
Proof.
  cbv zeta. split; [reflexivity|].
  pose proof (error_paths_reset_view
                (run start [DropFiles [png]; RecognizeClick])
                (UploadFetched 3 false) eq_refl) as (Hv & _ & _ & Hb & _).
  split; [exact Hv | exact Hb].
Defined.

(** ** File reads and recognition results *)

(** X12.  A file read is not tied to the selection: when a second valid
    file is selected while the first is still being read, the end of the
    first read acts on the page all the same.  Its success puts the
    preview of the first file into the upload area although the second is
    selected; its failure clears the selection of the second file and
    disables the control, while the read of the second file stays
    pending. *)
Theorem read_outlives_selection
        (page : Elements) (notes : list Notification) (es : list Event)
        (f g : File) :
  valid_file f = true ->
  valid_file g = true ->
  let s := run (constructor page notes) es in
  let s2 := run s [DropFiles [f]; DropFiles [g]] in
  currentFile s2 = Some g
  /\ innerHTML (uploadArea (elements (step s2 (ReaderLoad (fresh s))))) =
     ImagePreview f
  /\ currentFile (step s2 (ReaderLoad (fresh s))) = Some g
  /\ currentFile (step s2 (ReaderError (fresh s))) = None
  /\ btn_disabled (step s2 (ReaderError (fresh s))) = true
  /\ lookup_task (S (fresh s)) (tasks (step s2 (ReaderError (fresh s)))) =
     Some (Reader g).
Proof.
  intros Hf Hg. cbv zeta. set (s := run (constructor page notes) es).
  assert (Hw : well_numbered s)
    by (apply run_well_numbered, constructor_well_numbered).
  pose proof Hw as (_ & Ht & _).
  assert (Hs2 : tasks (run s [DropFiles [f]; DropFiles [g]]) =
                ((tasks s ++ [(fresh s, Reader f)])
                   ++ [(S (fresh s), Reader g)])%list).
  { cbn [run fold_left step]. unfold handleDrop, seq.
    rewrite !handleFileSelect_valid by assumption. reflexivity. }
  assert (Hl : lookup_task (fresh s)
                 (tasks (run s [DropFiles [f]; DropFiles [g]])) = Some (Reader f)).
  { rewrite Hs2. apply lookup_task_app_some, lookup_snoc_fresh, Ht. }
  assert (Hc : currentFile (run s [DropFiles [f]; DropFiles [g]]) = Some g).
  { cbn [run fold_left step]. unfold handleDrop, seq.
    rewrite !handleFileSelect_valid by assumption. reflexivity. }
  remember (run s [DropFiles [f]; DropFiles [g]]) as s2 eqn:E. clear E.
  cbn [step]. unfold settle. rewrite Hl. cbn.
  repeat split; try assumption.
  rewrite Hs2, lookup_remove_other by lia.
  apply lookup_snoc_fresh.
  apply Forall_app. split; [|repeat constructor; cbn; lia].
  eapply below_mono; [exact Ht | lia].
Qed.

Lemma read_outlives_selection_witness :
  let bmp := mkFile "b.bmp" "image/bmp" 10 in
  let s2 := run start [DropFiles [png]; DropFiles [bmp]] in
  valid_file png = true /\ valid_file bmp = true
  /\ currentFile (step s2 (ReaderLoad 2)) = Some bmp
  /\ innerHTML (uploadArea (elements (step s2 (ReaderLoad 2)))) = ImagePreview png
  /\ currentFile (step s2 (ReaderError 2)) = None.
Proof.
  cbv zeta. do 2 (split; [reflexivity|]).
  pose proof (read_outlives_selection blank_page [] [] png
                (mkFile "b.bmp" "image/bmp" 10) eq_refl eq_refl)
    as (_ & Hp & Hc & He & _).
  split; [exact Hc|]. split; [exact Hp | exact He].
Defined.

(** X13.  A successful answer is displayed as it comes: the result area
    shows [recognized_text] (the empty text when the field is missing),
    the file-name display shows the server's [filename] behind "Файл: "
    (the word [undefined] when it is missing), the file stays selected and
    the control is enabled again.  A following click on the copy button
    hands exactly the displayed text to the clipboard, or, when that text
    is empty or equal to the placeholder, nothing. *)
Theorem success_display
        (s : State) (tid : nat) (d : UploadData) :
  lookup_task tid (tasks s) = Some UploadJson ->
  success d = true ->
  let s1 := step s (UploadParsed tid (Some d)) in
  let text := as_text (recognized_text d) in
  resultText (elements s1) = mkLabel text "#000"
  /\ fileNameDisplay (elements s1) = "Файл: " ++ interpolate (filename d)
  /\ fileName (elements s1) = fileName (elements s)
  /\ currentFile s1 = currentFile s
  /\ btn_disabled s1 = false
  /\ notifications s1 = [mkNote (fresh s) success_class "Текст успешно распознан!"]
  /\ copied (log (step s1 CopyClick)) =
     (copied (log s) ++ if copyable text then [text] else [])%list
  /\ copied (log (step s1 CopyClickNoApi)) =
     (copied (log s) ++ if copyable text then [text] else [])%list.
Proof.
  intros Hl Hd. cbv zeta. cbn [step]. unfold settle. rewrite Hl.
  unfold seq, recognizeText_try. rewrite Hd.
  repeat split.
  all: unfold copyToClipboard, copyable, copied; cbn.
  all: destruct (String.eqb (as_text (recognized_text d)) ""
                 || String.eqb (as_text (recognized_text d)) placeholder);
    cbn; rewrite ?flat_map_app; cbn; rewrite ?app_nil_r; reflexivity.
Qed.

Lemma success_display_witness :
  let s := run start [DropFiles [png]; RecognizeClick; UploadFetched 3 true] in
  let d := mkUpload true None None None in
  lookup_task 3 (tasks s) = Some UploadJson
  /\ success d = true
  /\ resultText (elements (step s (UploadParsed 3 (Some d)))) = mkLabel "" "#000"
  /\ fileNameDisplay (elements (step s (UploadParsed 3 (Some d)))) =
     "Файл: undefined"
  /\ copied (log (step (step s (UploadParsed 3 (Some d))) CopyClick)) = [].
Proof.
  cbv zeta. do 2 (split; [reflexivity|]).
  pose proof (success_display
                (run start [DropFiles [png]; RecognizeClick; UploadFetched 3 true])
                3 (mkUpload true None None None) eq_refl eq_refl)
    as (Hr & Hn & _ & _ & _ & _ & Hc & _).
  split; [exact Hr|]. split; [exact Hn | exact Hc].
Defined.

(** ** Kinds of notification and states of the control *)

Lemma step_known_class (s : State) (e : Event) :
  forallb known_class (notifications s) = true ->
  forallb known_class (notifications (step s e)) = true.
Proof.
  intros Hk. by_event e f.
  all: try (checks f; cbn; assumption).
  all: branches; try assumption; try reflexivity.
  apply forallb_forall. intros n Hn. apply filter_In in Hn.
  rewrite forallb_forall in Hk. apply Hk, Hn.
Qed.

Lemma run_known_class (s : State) (es : list Event) :
  forallb known_class (notifications s) = true ->
  forallb known_class (notifications (run s es)) = true.
Proof.
  revert s. induction es as [|e es IH]; intros s Hs; [exact Hs|].
  change (run s (e :: es)) with (run (step s e) es).
  apply IH, step_known_class, Hs.
Qed.

(** X14.  On a page whose markup holds no notification, every
    notification the controller ever shows is of the error kind or of the
    success kind. *)
Theorem only_two_kinds_of_notification
        (page : Elements) (es : list Event) (n : Notification) :
  In n (notifications (run (constructor page []) es)) ->
  note_class n = error_class \/ note_class n = success_class.
Proof.
  intros Hin.
  pose proof (run_known_class (constructor page []) es eq_refl) as H.
  rewrite forallb_forall in H. specialize (H n Hin).
  unfold known_class in H. apply Bool.orb_true_iff in H.
  destruct H as [H|H]; apply String.eqb_eq in H; auto.
Qed.

Lemma only_two_kinds_of_notification_witness :
  let n := mkNote 4 success_class "Текст успешно распознан!" in
  let es := [DropFiles [png]; RecognizeClick; UploadFetched 3 true;
             UploadParsed 3 (Some (mkUpload true (Some "text") None None))] in
  In n (notifications (run (constructor blank_page []) es))
  /\ (note_class n = error_class \/ note_class n = success_class).
Proof.
  cbv zeta.
  assert (Hin : In (mkNote 4 success_class "Текст успешно распознан!")
                   (notifications (run (constructor blank_page [])
                      [DropFiles [png]; RecognizeClick; UploadFetched 3 true;
                       UploadParsed 3 (Some (mkUpload true (Some "text") None None))])))
    by (vm_compute; left; reflexivity).
  split; [exact Hin|].
  pose proof (only_two_kinds_of_notification blank_page
                [DropFiles [png]; RecognizeClick; UploadFetched 3 true;
                 UploadParsed 3 (Some (mkUpload true (Some "text") None None))]
                (mkNote 4 success_class "Текст успешно распознан!") Hin) as H.
  exact H.
Defined.

(** X15.  [setRecognizeButtonState] knows two states.  The state
    [ready] leaves the control exactly as [enableRecognizeButton] does,
    also after [loading]; the state [loading] disables it under the
    caption of work in progress; any other state leaves the page as it
    is. *)
Theorem setRecognizeButtonState_states (state : string) (s : State) :
  state <> "loading" ->
  state <> "ready" ->
  setRecognizeButtonState state s = skip s
  /\ setRecognizeButtonState "ready" s = enableRecognizeButton s
  /\ setRecognizeButtonState "ready" (setRecognizeButtonState "loading" s) =
     enableRecognizeButton s
  /\ recognizeBtn (elements (setRecognizeButtonState "loading" s)) =
     mkButton true "Обработка..."
  /\ recognizeBtn (elements (disableRecognizeButton
                               (setRecognizeButtonState "ready" s))) =
     mkButton true "Распознать текст".
Proof.
  intros Hl Hr. unfold setRecognizeButtonState at 1.
  apply String.eqb_neq in Hl, Hr. rewrite Hl, Hr.
  repeat split.
Qed.

Lemma setRecognizeButtonState_states_witness :
  "busy" <> "loading" /\ "busy" <> "ready"
  /\ setRecognizeButtonState "busy" start = start.
Proof.
  assert (Hl : "busy" <> "loading") by discriminate.
  assert (Hr : "busy" <> "ready") by discriminate.
  split; [exact Hl|]. split; [exact Hr|].
  exact (proj1 (setRecognizeButtonState_states "busy" start Hl Hr)).
Defined.

(** ** The validation table and late answers *)

(** X16.  [handleFileSelect] stores a file exactly when its type is one
    of the five listed strings, compared as they are, and its size is at
    most 16777216 bytes, the bound included; the name plays no part. *)
Theorem validation_table (f : File) (s : State) :
  currentFile (handleFileSelect (Some f) s) = Some f
  <-> (In (type f) ["image/png"; "image/jpeg"; "image/jpg"; "image/bmp";
                    "image/tiff"]
       /\ (size f <= 16777216)%N).
Proof.
  assert (Hi : includes allowedTypes (type f) = true <-> In (type f) allowedTypes).
  { unfold includes. rewrite existsb_exists. split.
    - intros [x [Hx He]]. apply String.eqb_eq in He. subst. exact Hx.
    - intros Hx. exists (type f). split; [exact Hx | apply String.eqb_refl]. }
  change ["image/png"; "image/jpeg"; "image/jpg"; "image/bmp"; "image/tiff"]
    with allowedTypes.
  change 16777216%N with maxSize.
  rewrite <- Hi. clear Hi.
  destruct (valid_file f) eqn:Hv.
  - rewrite handleFileSelect_valid by assumption.
    unfold valid_file in Hv. apply Bool.andb_true_iff in Hv.
    destruct Hv as [Ha Hb]. apply N.leb_le in Hb. split; [auto | reflexivity].
  - rewrite handleFileSelect_invalid by assumption. split; [discriminate|].
    intros [Ha Hb]. apply N.leb_le in Hb.
    unfold valid_file in Hv. rewrite Ha, Hb in Hv. discriminate.
Qed.

Lemma lookup_remove_same (tid : nat) (l : list (nat * Task)) :
  NoDup (map fst l) -> lookup_task tid (remove_task tid l) = None.
Proof.
  intros Hd. destruct (lookup_task tid (remove_task tid l)) as [t|] eqn:E;
    [|reflexivity].
  apply lookup_task_In in E. exfalso.
  apply (remove_task_notin tid l Hd). apply in_map_iff.
  exists (tid, t). split; [reflexivity | exact E].
Qed.

(** The second suspension of [recognizeText] keeps the identity of the call. *)
Lemma fetch_fulfilled_awaits_json (s : State) (tid : nat) :
  well_numbered s -> lookup_task tid (tasks s) = Some UploadFetch ->
  lookup_task tid (tasks (step s (UploadFetched tid true))) = Some UploadJson.
Proof.
  intros (Hd & _) Hl. cbn [step]. unfold settle. rewrite Hl. cbn.
  rewrite lookup_task_app by (apply lookup_remove_same, Hd).
  rewrite lookup_task_cons, Nat.eqb_refl. reflexivity.
Qed.

Lemma success_shown (s : State) (tid : nat) (d : UploadData) :
  lookup_task tid (tasks s) = Some UploadJson ->
  success d = true ->
  let s1 := step s (UploadParsed tid (Some d)) in
  resultText (elements s1) = mkLabel (as_text (recognized_text d)) "#000"
  /\ fileNameDisplay (elements s1) = "Файл: " ++ interpolate (filename d)
  /\ fileName (elements s1) = fileName (elements s)
  /\ currentFile s1 = currentFile s
  /\ btn_disabled s1 = false.
Proof.
  intros Hl Hd. cbv zeta. cbn [step]. unfold settle. rewrite Hl.
  unfold seq, recognizeText_try. rewrite Hd. repeat split.
Qed.

(** X17.  The answer to a request is displayed whatever has been
    selected in the meantime.  In any state the page reaches with a file
    [f] selected: after a recognize click, the selection of another valid
    file [g], and a successful answer to the request, the file sent was
    [f], the selection is [g] with its name in the name line, and the
    result area shows the text recognised from [f] under the file name
    the server reported. *)
Theorem late_answer_is_displayed
        (page : Elements) (notes : list Notification) (es : list Event)
        (f g : File) (d : UploadData) :
  let s := run (constructor page notes) es in
  currentFile s = Some f ->
  valid_file g = true ->
  success d = true ->
  let s' := run s [RecognizeClick; DropFiles [g];
                   UploadFetched (fresh s) true;
                   UploadParsed (fresh s) (Some d)] in
  uploaded (log s') = (uploaded (log s) ++ [f])%list
  /\ currentFile s' = Some g
  /\ fileName (elements s') = mkLabel ("Выбран файл: " ++ name g) "#4CAF50"
  /\ resultText (elements s') = mkLabel (as_text (recognized_text d)) "#000"
  /\ fileNameDisplay (elements s') = "Файл: " ++ interpolate (filename d)
  /\ btn_disabled s' = false.
Proof.
  cbv zeta. set (s := run (constructor page notes) es). intros Hf Hg Hd.
  assert (Hw : well_numbered s)
    by (apply run_well_numbered, constructor_well_numbered).
  pose proof Hw as (_ & Ht & _).
  set (s1 := step s RecognizeClick).
  set (s2 := step s1 (DropFiles [g])).
  set (s3 := step s2 (UploadFetched (fresh s) true)).
  change (run s [RecognizeClick; DropFiles [g]; UploadFetched (fresh s) true;
                 UploadParsed (fresh s) (Some d)])
    with (step s3 (UploadParsed (fresh s) (Some d))).
  assert (H1 : lookup_task (fresh s) (tasks s1) = Some UploadFetch).
  { unfold s1. cbn [step]. unfold recognizeText. rewrite Hf. cbn.
    apply lookup_snoc_fresh, Ht. }
  assert (H2 : lookup_task (fresh s) (tasks s2) = Some UploadFetch).
  { unfold s2. cbn [step]. unfold handleDrop, seq.
    rewrite handleFileSelect_valid by assumption. cbn.
    apply lookup_task_app_some, H1. }
  assert (Hw2 : well_numbered s2)
    by (unfold s2, s1; repeat apply step_well_numbered; exact Hw).
  assert (H3 : lookup_task (fresh s) (tasks s3) = Some UploadJson)
    by (apply fetch_fulfilled_awaits_json; assumption).
  destruct (success_shown s3 (fresh s) d H3 Hd) as (Hr & Hn & Hfn & Hc & Hb).
  assert (E2 : currentFile s2 = Some g /\
               fileName (elements s2) =
                 mkLabel ("Выбран файл: " ++ name g) "#4CAF50").
  { unfold s2. cbn [step]. unfold handleDrop, seq.
    rewrite handleFileSelect_valid by assumption. split; reflexivity. }
  assert (E3 : currentFile s3 = Some g /\
               fileName (elements s3) =
                 mkLabel ("Выбран файл: " ++ name g) "#4CAF50").
  { unfold s3. cbn [step]. unfold settle. rewrite H2. exact E2. }
  destruct E3 as [E3 E3'].
  repeat split; try assumption; try congruence.
  rewrite !step_uploaded. unfold s3, s2, s1. rewrite !step_uploaded.
  rewrite Hf. cbn. rewrite !app_nil_r. reflexivity.
Qed.

Lemma late_answer_is_displayed_witness :
  let s := run (constructor blank_page []) [DropFiles [png]] in
  let bmp := mkFile "b.bmp" "image/bmp" 10 in
  let d := mkUpload true (Some "text") (Some "scan.png") None in
  let s' := run s [RecognizeClick; DropFiles [bmp]; UploadFetched (fresh s) true;
                   UploadParsed (fresh s) (Some d)] in
  currentFile s = Some png /\ valid_file bmp = true /\ success d = true
  /\ uploaded (log s') = [png]
  /\ currentFile s' = Some bmp
  /\ textContent (resultText (elements s')) = "text".
Proof.
  cbv zeta. do 3 (split; [reflexivity|]).
  pose proof (late_answer_is_displayed blank_page [] [DropFiles [png]] png
                (mkFile "b.bmp" "image/bmp" 10)
                (mkUpload true (Some "text") (Some "scan.png") None)
                eq_refl eq_refl eq_refl) as (Hu & Hc & _ & Hr & _).
  split; [exact Hu|]. split; [exact Hc|].
  rewrite Hr. reflexivity.
Defined.
